(** * Behavioral monitor: a shallow embedding of [behavioral_monitor.py]

    The monitor buffers keystroke and pointer events coming from capture
    callbacks, moves them into two retention buffers once per analysis
    iteration, and derives typing and pointer metrics over a trailing window.

    Conventions of the embedding:
    - every [time.time()] reading is an explicit argument of the function
      that performs it, so a callback or an analysis iteration is a pure
      function from a monitor state to a monitor state;
    - Python floats are idealised as rationals ([Q]); comparisons are the
      boolean comparisons of [Q], and [round] is rounding half to even;
    - the float square root [x ** 0.5], which has no rational counterpart,
      is a parameter [fsqrt] of the pointer metrics;
    - a [queue.Queue] is a record of its [maxsize] and its items, a
      [deque(maxlen=n)] is a list with the overflow rule written out, and the
      [key_press_times] dictionary is a [gmap] keyed by [str(key)]. *)

From Stdlib Require Import QArith Qround Lqa Lia ZArith Ascii String List Bool Sorted.
From stdpp Require Import gmap strings.
Import ListNotations.

Local Open Scope Q_scope.

(** ** Rational arithmetic as the source uses it *)

(** [a < b] on floats. *)
Definition Qltb (a b : Q) : bool := negb (Qle_bool b a).

(** [max(a, b)]: Python returns the first argument unless the second is
    strictly larger. *)
Definition py_max (a b : Q) : Q := if Qltb a b then b else a.

(** [min(a, b)]: the first argument unless the second is strictly smaller. *)
Definition py_min (a b : Q) : Q := if Qltb b a then b else a.

Fixpoint pow10 (n : nat) : positive :=
  match n with
  | O => 1%positive
  | S n' => (10 * pow10 n')%positive
  end.

(** [round(x, ndigits)]: the multiple of [10^-ndigits] nearest to [x], ties
    going to the even one. *)
Definition py_round (x : Q) (ndigits : nat) : Q :=
  let y := x * (Zpos (pow10 ndigits) # 1) in
  let f := Qfloor y in
  let r := y - (f # 1) in
  let n :=
    if Qltb r (1 # 2) then f
    else if Qltb (1 # 2) r then (f + 1)%Z
    else if Z.even f then f else (f + 1)%Z in
  n # pow10 ndigits.

Definition Qsum (l : list Q) : Q := fold_right Qplus 0 l.

Definition Qlen {A} (l : list A) : Q := Z.of_nat (length l) # 1.

(** [statistics.mean] on a non-empty list. *)
Definition mean (l : list Q) : Q := Qsum l / Qlen l.

(** [statistics.variance]: the sample variance, for at least two values. *)
Definition variance (l : list Q) : Q :=
  let m := mean l in
  Qsum (map (fun x => (x - m) * (x - m)) l) / (Qlen l - 1).

(** ** Data model *)

Inductive KeyType := letter | number | space | special | modifier.

Record KeystrokeData := mkKeystrokeData {
  ks_timestamp : Q;
  key_type : KeyType;
  is_modifier : bool;
  press_duration : option Q
}.

Inductive Action := move | click | scroll.

Inductive ScrollDirection := up | down | horizontal.

Record MouseData := mkMouseData {
  md_timestamp : Q;
  md_x : Z;
  md_y : Z;
  action : Action;
  button : option string;
  scroll_direction : option ScrollDirection
}.

Record TypingMetrics := mkTypingMetrics {
  wpm : Q;
  raw_wpm : Q;
  accuracy_score : Q;
  rhythm_consistency : Q;
  fatigue_score : Q;
  health_score : Q;
  avg_keystroke_interval : Q;
  keystroke_variance : Q;
  pause_frequency : Q;
  typing_bursts : nat
}.

Record MouseMetrics := mkMouseMetrics {
  total_distance : Q;
  avg_speed : Q;
  click_frequency : Q;
  scroll_frequency : Q;
  movement_smoothness : Q;
  idle_periods : nat;
  active_time_percentage : Q
}.

Definition Action_eqb (a b : Action) : bool :=
  match a, b with
  | move, move | click, click | scroll, scroll => true
  | _, _ => false
  end.

(** ** [queue.Queue] and [deque(maxlen=...)] *)

(** A [queue.Queue(maxsize)]; [maxsize <= 0] means no bound. *)
Record PyQueue (A : Type) := mkQueue {
  q_maxsize : Z;
  q_items : list A
}.
Arguments mkQueue {A} _ _.
Arguments q_maxsize {A} _.
Arguments q_items {A} _.

(** [queue.Queue()]: [maxsize] defaults to 0. *)
Definition new_queue {A} : PyQueue A := mkQueue 0 [].

(** [Queue.put_nowait]: [None] stands for raising [queue.Full]. *)
Definition put_nowait {A} (q : PyQueue A) (x : A) : option (PyQueue A) :=
  if ((0 <? q_maxsize q)%Z && (q_maxsize q <=? Z.of_nat (length (q_items q)))%Z)%bool
  then None
  else Some (mkQueue (q_maxsize q) (q_items q ++ [x])).

(** The callbacks' [try: q.put_nowait(x) except queue.Full: pass]. *)
Definition try_put {A} (q : PyQueue A) (x : A) : PyQueue A :=
  match put_nowait q x with
  | Some q' => q'
  | None => q
  end.

(** Both retention buffers are [deque(maxlen=10000)]. *)
Definition maxlen : Z := 10000.

(** [deque.append] on a bounded deque: a full deque discards its leftmost
    item. *)
Definition deque_append {A} (d : list A) (x : A) : list A :=
  if (maxlen <=? Z.of_nat (length d))%Z then tl d ++ [x] else d ++ [x].

(** ** Raw keys and the classifier *)

(** A pynput key as the monitor sees it: its [char] attribute ([None] when
    the attribute is absent or holds [None]) and its [str(key)]. *)
Record RawKey := mkRawKey {
  key_char : option string;
  key_str : string
}.

Definition in_range (lo hi n : nat) : bool := (lo <=? n)%nat && (n <=? hi)%nat.

(** [str.isalpha], [str.isdigit], [str.isspace] and [str.lower] on ASCII
    text.  On other text Python consults the Unicode character tables, which
    are not part of this development: these definitions agree with Python
    on keys whose [char] and name are ASCII, and a result that must hold for
    every key is stated for an arbitrary classifier (see
    [on_key_press_with]). *)
Definition ascii_isalpha (c : ascii) : bool :=
  in_range 65 90 (nat_of_ascii c) || in_range 97 122 (nat_of_ascii c).

Definition ascii_isdigit (c : ascii) : bool := in_range 48 57 (nat_of_ascii c).

Definition ascii_isspace (c : ascii) : bool :=
  in_range 9 13 (nat_of_ascii c) || in_range 28 32 (nat_of_ascii c).

Definition ascii_lower (c : ascii) : ascii :=
  if in_range 65 90 (nat_of_ascii c) then ascii_of_nat (nat_of_ascii c + 32) else c.

Definition str_all (p : ascii -> bool) (s : string) : bool :=
  match s with
  | EmptyString => false
  | _ => forallb p (list_ascii_of_string s)
  end.

Definition isalpha : string -> bool := str_all ascii_isalpha.
Definition isdigit : string -> bool := str_all ascii_isdigit.
Definition isspace : string -> bool := str_all ascii_isspace.

Fixpoint lower (s : string) : string :=
  match s with
  | EmptyString => EmptyString
  | String c s' => String (ascii_lower c) (lower s')
  end.

(** [sub in s]. *)
Fixpoint contains (sub s : string) : bool :=
  String.prefix sub s ||
  match s with
  | EmptyString => false
  | String _ s' => contains sub s'
  end.

Definition modifiers : list string := ["ctrl"; "alt"; "shift"; "cmd"; "win"]%string.

Definition truthy (s : string) : bool :=
  match s with
  | EmptyString => false
  | _ => true
  end.

(** [_classify_key]. *)
Definition classify_key (key : RawKey) : KeyType * bool :=
  let special_key :=
    let key_name := lower (key_str key) in
    let is_mod := existsb (fun m => contains m key_name) modifiers in
    (if is_mod then modifier else special, is_mod) in
  match key_char key with
  | Some c =>
      if truthy c then
        if isalpha c then (letter, false)
        else if isdigit c then (number, false)
        else if isspace c then (space, false)
        else (special, false)
      else special_key
  | None => special_key
  end.

(** ** The monitor state *)

(** The [current_metrics] dictionary. *)
Record CurrentMetrics := mkCurrentMetrics {
  typing : TypingMetrics;
  mouse : MouseMetrics;
  last_activity : Q;
  session_start : Q;
  total_keystrokes : Z;
  total_mouse_events : Z
}.

(** The attributes of a [BehavioralMonitor] that the callbacks, the analysis
    loop and the queries read or write. *)
Record Monitor := mkMonitor {
  analysis_window : Q;
  inactivity_threshold : Q;
  data_retention : Q;
  keystroke_data : list KeystrokeData;
  mouse_data : list MouseData;
  key_press_times : gmap string Q;
  current_metrics : CurrentMetrics;
  app_usage : gmap string Q;
  running : bool;
  keystroke_queue : PyQueue KeystrokeData;
  mouse_queue : PyQueue MouseData
}.

Definition set_keystroke_data (v : list KeystrokeData) (s : Monitor) : Monitor :=
  mkMonitor (analysis_window s) (inactivity_threshold s) (data_retention s)
    v (mouse_data s) (key_press_times s) (current_metrics s) (app_usage s)
    (running s) (keystroke_queue s) (mouse_queue s).

Definition set_mouse_data (v : list MouseData) (s : Monitor) : Monitor :=
  mkMonitor (analysis_window s) (inactivity_threshold s) (data_retention s)
    (keystroke_data s) v (key_press_times s) (current_metrics s) (app_usage s)
    (running s) (keystroke_queue s) (mouse_queue s).

Definition set_key_press_times (v : gmap string Q) (s : Monitor) : Monitor :=
  mkMonitor (analysis_window s) (inactivity_threshold s) (data_retention s)
    (keystroke_data s) (mouse_data s) v (current_metrics s) (app_usage s)
    (running s) (keystroke_queue s) (mouse_queue s).

Definition set_current_metrics (v : CurrentMetrics) (s : Monitor) : Monitor :=
  mkMonitor (analysis_window s) (inactivity_threshold s) (data_retention s)
    (keystroke_data s) (mouse_data s) (key_press_times s) v (app_usage s)
    (running s) (keystroke_queue s) (mouse_queue s).

Definition set_running (v : bool) (s : Monitor) : Monitor :=
  mkMonitor (analysis_window s) (inactivity_threshold s) (data_retention s)
    (keystroke_data s) (mouse_data s) (key_press_times s) (current_metrics s)
    (app_usage s) v (keystroke_queue s) (mouse_queue s).

Definition set_keystroke_queue (v : PyQueue KeystrokeData) (s : Monitor) : Monitor :=
  mkMonitor (analysis_window s) (inactivity_threshold s) (data_retention s)
    (keystroke_data s) (mouse_data s) (key_press_times s) (current_metrics s)
    (app_usage s) (running s) v (mouse_queue s).

Definition set_mouse_queue (v : PyQueue MouseData) (s : Monitor) : Monitor :=
  mkMonitor (analysis_window s) (inactivity_threshold s) (data_retention s)
    (keystroke_data s) (mouse_data s) (key_press_times s) (current_metrics s)
    (app_usage s) (running s) (keystroke_queue s) v.

Definition set_typing (v : TypingMetrics) (c : CurrentMetrics) : CurrentMetrics :=
  mkCurrentMetrics v (mouse c) (last_activity c) (session_start c)
    (total_keystrokes c) (total_mouse_events c).

Definition set_mouse (v : MouseMetrics) (c : CurrentMetrics) : CurrentMetrics :=
  mkCurrentMetrics (typing c) v (last_activity c) (session_start c)
    (total_keystrokes c) (total_mouse_events c).

(** [BehavioralMonitor.__init__]; [t_last] and [t_start] are the two clock
    readings stored in [current_metrics]. *)
Definition init (analysis_window inactivity_threshold data_retention : Q)
    (t_last t_start : Q) : Monitor :=
  mkMonitor analysis_window inactivity_threshold data_retention
    [] [] ∅
    (mkCurrentMetrics
       (mkTypingMetrics 0 0 0 0 0 0 0 0 0 0)
       (mkMouseMetrics 0 0 0 0 0 0 0)
       t_last t_start 0 0)
    ∅ false new_queue new_queue.

(** [start_monitoring] and [stop_monitoring] as far as the attributes of
    [Monitor] go: each returns at once when the flag already has the value it
    would set, and otherwise sets [running].  The listener and thread handles
    that [start_monitoring] also assigns are not attributes of [Monitor]:
    what the listeners and the analysis thread it starts do to the state is
    the events [KeyPress] ... [Tick] below, so a started monitor changes
    further only through those. *)
Definition start_monitoring (s : Monitor) : Monitor :=
  if running s then s else set_running true s.
Definition stop_monitoring (s : Monitor) : Monitor :=
  if negb (running s) then s else set_running false s.

(** ** Capture callbacks *)

(** [_on_key_press], at clock reading [timestamp]. *)
Definition on_key_press (key : RawKey) (timestamp : Q) (s : Monitor) : Monitor :=
  if negb (running s) then s
  else
    let '(kt, is_mod) := classify_key key in
    let key_id := key_str key in
    let s1 := set_key_press_times (<[key_id := timestamp]> (key_press_times s)) s in
    let keystroke := mkKeystrokeData timestamp kt is_mod None in
    set_keystroke_queue (try_put (keystroke_queue s1) keystroke) s1.

Definition set_press_duration (d : Q) (k : KeystrokeData) : KeystrokeData :=
  mkKeystrokeData (ks_timestamp k) (key_type k) (is_modifier k) (Some d).

(** [self.keystroke_data[-1].press_duration = d] on a non-empty deque. *)
Definition set_last_duration (d : Q) (l : list KeystrokeData) : list KeystrokeData :=
  match last l with
  | Some k => removelast l ++ [set_press_duration d k]
  | None => l
  end.

(** [_on_key_release], at clock reading [timestamp].  The lookup
    [key_press_times.get(key_id, 0)] of the last test runs after the [del]. *)
Definition on_key_release (key : RawKey) (timestamp : Q) (s : Monitor) : Monitor :=
  if negb (running s) then s
  else
    let key_id := key_str key in
    match key_press_times s !! key_id with
    | Some pressed_at =>
        let press_duration := timestamp - pressed_at in
        let s1 := set_key_press_times (delete key_id (key_press_times s)) s in
        match last (keystroke_data s1) with
        | Some k =>
            if Qeq_bool (ks_timestamp k) (default 0 (key_press_times s1 !! key_id))
            then set_keystroke_data
                   (set_last_duration press_duration (keystroke_data s1)) s1
            else s1
        | None => s1
        end
    | None => s
    end.

Definition enqueue_mouse (m : MouseData) (s : Monitor) : Monitor :=
  set_mouse_queue (try_put (mouse_queue s) m) s.

(** [_on_mouse_move]. *)
Definition on_mouse_move (x y : Z) (timestamp : Q) (s : Monitor) : Monitor :=
  if negb (running s) then s
  else enqueue_mouse (mkMouseData timestamp x y move None None) s.

(** [_on_mouse_click]; [btn] is [str(button)]. *)
Definition on_mouse_click (x y : Z) (btn : string) (pressed : bool)
    (timestamp : Q) (s : Monitor) : Monitor :=
  if negb (running s) then s
  else if pressed
  then enqueue_mouse (mkMouseData timestamp x y click (Some btn) None) s
  else s.

(** [_on_mouse_scroll]. *)
Definition on_mouse_scroll (x y dx dy : Z) (timestamp : Q) (s : Monitor) : Monitor :=
  if negb (running s) then s
  else
    let direction :=
      if (0 <? dy)%Z then up else if (dy <? 0)%Z then down else horizontal in
    enqueue_mouse (mkMouseData timestamp x y scroll None (Some direction)) s.

(** ** Draining the queues and eviction *)

Definition drain_keystroke (current_time : Q) (s : Monitor) (k : KeystrokeData) : Monitor :=
  let c := current_metrics s in
  set_current_metrics
    (mkCurrentMetrics (typing c) (mouse c) current_time (session_start c)
       (total_keystrokes c + 1)%Z (total_mouse_events c))
    (set_keystroke_data (deque_append (keystroke_data s) k) s).

Definition drain_mouse (current_time : Q) (s : Monitor) (m : MouseData) : Monitor :=
  let c := current_metrics s in
  set_current_metrics
    (mkCurrentMetrics (typing c) (mouse c) current_time (session_start c)
       (total_keystrokes c) (total_mouse_events c + 1)%Z)
    (set_mouse_data (deque_append (mouse_data s) m) s).

(** [_process_queued_data]: each [while not q.empty()] loop takes the items
    in arrival order and leaves the queue empty. *)
Definition process_queued_data (current_time : Q) (s : Monitor) : Monitor :=
  let kq := keystroke_queue s in
  let s1 := fold_left (drain_keystroke current_time) (q_items kq)
              (set_keystroke_queue (mkQueue (q_maxsize kq) []) s) in
  let mq := mouse_queue s1 in
  fold_left (drain_mouse current_time) (q_items mq)
    (set_mouse_queue (mkQueue (q_maxsize mq) []) s1).

(** [while d and d[0].timestamp < cutoff: d.popleft()]. *)
Fixpoint popleft_while {A} (ts : A -> Q) (cutoff : Q) (d : list A) : list A :=
  match d with
  | [] => []
  | x :: d' => if Qltb (ts x) cutoff then popleft_while ts cutoff d' else d
  end.

(** [_clean_old_data]. *)
Definition clean_old_data (current_time : Q) (s : Monitor) : Monitor :=
  let cutoff_time := current_time - data_retention s in
  let s1 := set_keystroke_data
              (popleft_while ks_timestamp cutoff_time (keystroke_data s)) s in
  set_mouse_data (popleft_while md_timestamp cutoff_time (mouse_data s1)) s1.

(** ** Typing metrics *)

(** The value returned when fewer than two keystrokes qualify. *)
Definition degenerate_typing : TypingMetrics :=
  mkTypingMetrics 0 0 0 0 0 50 0 0 0 0.

(** The filter of [recent_keystrokes]. *)
Definition qualifies (window_start : Q) (ks : KeystrokeData) : bool :=
  Qle_bool window_start (ks_timestamp ks) && negb (is_modifier ks).

(** [ts[i] - ts[i-1]] for [i] from 1. *)
Fixpoint intervals_of (ts : list Q) : list Q :=
  match ts with
  | a :: (b :: _) as rest => (b - a) :: intervals_of rest
  | _ => []
  end.

Definition burst_threshold : Q := 1 # 10.

(** One iteration of the burst loop on the pair
    [(bursts, consecutive_fast)]. *)
Definition burst_step (st : nat * nat) (interval : Q) : nat * nat :=
  let '(bursts, consecutive_fast) := st in
  if Qltb interval burst_threshold
  then (bursts, S consecutive_fast)
  else ((if (3 <=? consecutive_fast)%nat then S bursts else bursts), O).

(** The burst loop of [_calculate_typing_metrics]; the result is [bursts]
    when the loop ends. *)
Definition detect_bursts (intervals : list Q) : nat :=
  fst (fold_left burst_step intervals (O, O)).

Definition count_if {A} (p : A -> bool) (l : list A) : nat := length (List.filter p l).

Definition max_variance : Q := 1 # 2.
Definition baseline_wpm : Q := 40.

(** [_calculate_typing_metrics], at clock reading [current_time]. *)
Definition calculate_typing_metrics (current_time : Q) (s : Monitor) : TypingMetrics :=
  let window_start := current_time - analysis_window s in
  let recent_keystrokes := List.filter (qualifies window_start) (keystroke_data s) in
  if (length recent_keystrokes <? 2)%nat then degenerate_typing
  else
    match recent_keystrokes with
    | [] => degenerate_typing
    | first :: _ =>
        let time_span := current_time - ks_timestamp first in
        let wpm :=
          if Qltb 0 time_span
          then ((Qlen recent_keystrokes / time_span) * 60) / 5
          else 0 in
        let raw_wpm := wpm in
        let intervals := intervals_of (map ks_timestamp recent_keystrokes) in
        let avg_interval :=
          match intervals with [] => 0 | _ => mean intervals end in
        let interval_variance :=
          if (1 <? length intervals)%nat then variance intervals else 0 in
        let rhythm_consistency :=
          py_max 0 (100 - (interval_variance / max_variance) * 100) in
        let pauses := count_if (fun i => Qltb 2 i) intervals in
        let pause_frequency :=
          match intervals with
          | [] => 0
          | _ => ((Z.of_nat pauses # 1) / Qlen intervals) * 100
          end in
        let bursts := detect_bursts intervals in
        let wpm_factor := py_max 0 ((baseline_wpm - wpm) / baseline_wpm) * 100 in
        let variance_factor := py_min 100 ((interval_variance / max_variance) * 100) in
        let fatigue_score := (wpm_factor + variance_factor + pause_frequency) / 3 in
        let health_score :=
          py_min 100 (py_max 0 (100 - fatigue_score + (rhythm_consistency - 50) / 2)) in
        let accuracy_score :=
          py_min 100
            (py_max 0 (100 - (pause_frequency / 2) - (interval_variance * 100))) in
        mkTypingMetrics
          (py_round wpm 2) (py_round raw_wpm 2) (py_round accuracy_score 2)
          (py_round rhythm_consistency 2) (py_round fatigue_score 2)
          (py_round health_score 2) (py_round avg_interval 3)
          (py_round interval_variance 3) (py_round pause_frequency 2) bursts
    end.

(** ** Reading the state: the snapshot query *)

(** The dictionary returned by [get_current_metrics]. *)
Record Snapshot := mkSnapshot {
  snap_timestamp : Q;
  snap_session_duration : Q;
  snap_time_since_last_activity : Q;
  snap_is_inactive : bool;
  snap_typing_metrics : TypingMetrics;
  snap_mouse_metrics : MouseMetrics;
  snap_total_keystrokes : Z;
  snap_total_mouse_events : Z;
  snap_app_usage : gmap string Q
}.

(** [get_current_metrics], at clock reading [current_time]. *)
Definition get_current_metrics (current_time : Q) (s : Monitor) : Snapshot :=
  let c := current_metrics s in
  let session_duration := current_time - session_start c in
  let time_since_last_activity := current_time - last_activity c in
  let is_inactive := Qltb (inactivity_threshold s) time_since_last_activity in
  mkSnapshot current_time (py_round session_duration 2)
    (py_round time_since_last_activity 2) is_inactive
    (typing c) (mouse c) (total_keystrokes c) (total_mouse_events c)
    (app_usage s).

(** ** Pointer metrics, the analysis loop and runs of events *)

Section WithSqrt.

(** The float square root [x ** 0.5]. *)
Variable fsqrt : Q -> Q.

Definition sq (z : Z) : Z := (z * z)%Z.

(** The sum of the distances between consecutive move events, accumulated
    from 0 in list order. *)
Fixpoint sum_distances (acc : Q) (events : list MouseData) : Q :=
  match events with
  | prev :: (curr :: _) as rest =>
      let distance :=
        fsqrt ((sq (md_x curr - md_x prev) + sq (md_y curr - md_y prev))%Z # 1) in
      sum_distances (acc + distance) rest
  | _ => acc
  end.

(** Whether the triple [prev, curr, next] counts as a direction change. *)
Definition direction_change (prev curr next : MouseData) : bool :=
  let v1x := (md_x curr - md_x prev)%Z in
  let v1y := (md_y curr - md_y prev)%Z in
  let v2x := (md_x next - md_x curr)%Z in
  let v2y := (md_y next - md_y curr)%Z in
  if negb ((v1x =? 0)%Z && (v1y =? 0)%Z) && negb ((v2x =? 0)%Z && (v2y =? 0)%Z)
  then
    let dot_product := (v1x * v2x + v1y * v2y)%Z in
    let mag1 := fsqrt ((sq v1x + sq v1y)%Z # 1) in
    let mag2 := fsqrt ((sq v2x + sq v2y)%Z # 1) in
    if Qltb 0 mag1 && Qltb 0 mag2
    then
      let cos_angle := (dot_product # 1) / (mag1 * mag2) in
      let cos_angle := py_max (-1) (py_min 1 cos_angle) in
      Qltb cos_angle (1 # 2)
    else false
  else false.

(** The direction-change loop: [i] runs over the interior move events. *)
Fixpoint count_direction_changes (events : list MouseData) : nat :=
  match events with
  | prev :: (curr :: next :: _) as rest =>
      ((if direction_change prev curr next then 1 else 0)
       + count_direction_changes rest)%nat
  | _ => O
  end.

(** The idle-period loop over [recent_mouse[1:]]. *)
Fixpoint count_idle (last_timestamp : Q) (events : list MouseData) : nat :=
  match events with
  | [] => O
  | event :: rest =>
      ((if Qltb 5 (md_timestamp event - last_timestamp) then 1 else 0)
       + count_idle (md_timestamp event) rest)%nat
  end.

(** [_calculate_mouse_metrics], at clock reading [current_time]; [None]
    stands for the [ZeroDivisionError] of dividing by an [analysis_window]
    of 0. *)
Definition calculate_mouse_metrics (current_time : Q) (s : Monitor)
    : option MouseMetrics :=
  let window_start := current_time - analysis_window s in
  let recent_mouse :=
    List.filter (fun md => Qle_bool window_start (md_timestamp md)) (mouse_data s) in
  match recent_mouse with
  | [] => Some (mkMouseMetrics 0 0 0 0 0 0 0)
  | first :: others =>
      let movement_events :=
        List.filter (fun md => Action_eqb (action md) move) recent_mouse in
      let total_distance := sum_distances 0 movement_events in
      let time_span := current_time - md_timestamp first in
      let avg_speed := if Qltb 0 time_span then total_distance / time_span else 0 in
      let clicks := count_if (fun md => Action_eqb (action md) click) recent_mouse in
      let scrolls := count_if (fun md => Action_eqb (action md) scroll) recent_mouse in
      if Qeq_bool (analysis_window s) 0 then None
      else
        let click_frequency := ((Z.of_nat clicks # 1) / analysis_window s) * 60 in
        let scroll_frequency := ((Z.of_nat scrolls # 1) / analysis_window s) * 60 in
        let direction_changes := count_direction_changes movement_events in
        let movement_smoothness :=
          match movement_events with
          | [] => 100
          | _ => py_max 0 (100 - ((Z.of_nat direction_changes # 1)
                                    / Qlen movement_events) * 100)
          end in
        let idle_periods := count_idle (md_timestamp first) others in
        let active_time := time_span - (Z.of_nat idle_periods # 1) * 5 in
        let active_time_percentage :=
          if Qltb 0 time_span then (active_time / time_span) * 100 else 0 in
        let active_time_percentage := py_max 0 (py_min 100 active_time_percentage) in
        Some (mkMouseMetrics
                (py_round total_distance 2) (py_round avg_speed 2)
                (py_round click_frequency 2) (py_round scroll_frequency 2)
                (py_round movement_smoothness 2) idle_periods
                (py_round active_time_percentage 2))
  end.

(** The four statements of the [try] block of [_analysis_loop], each with
    its own clock reading. *)
Definition store_typing (t_typing : Q) (s : Monitor) : Monitor :=
  set_current_metrics
    (set_typing (calculate_typing_metrics t_typing s) (current_metrics s)) s.

(** When the pointer metrics raise, the loop's handler catches the exception
    and [current_metrics['mouse']] keeps its value. *)
Definition store_mouse (t_mouse : Q) (s : Monitor) : Monitor :=
  match calculate_mouse_metrics t_mouse s with
  | Some m => set_current_metrics (set_mouse m (current_metrics s)) s
  | None => s
  end.

Inductive LoopStatement :=
  | DoProcess (t : Q)
  | DoClean (t : Q)
  | DoTyping (t : Q)
  | DoMouse (t : Q).

Definition exec_statement (st : LoopStatement) (s : Monitor) : Monitor :=
  match st with
  | DoProcess t => process_queued_data t s
  | DoClean t => clean_old_data t s
  | DoTyping t => store_typing t s
  | DoMouse t => store_mouse t s
  end.

Definition exec_statements (sts : list LoopStatement) (s : Monitor) : Monitor :=
  fold_left (fun acc st => exec_statement st acc) sts s.

(** The clock readings of one iteration. *)
Record Clock := mkClock {
  t_process : Q;
  t_clean : Q;
  t_typing : Q;
  t_mouse : Q
}.

Definition iteration_body (c : Clock) : list LoopStatement :=
  [DoProcess (t_process c); DoClean (t_clean c);
   DoTyping (t_typing c); DoMouse (t_mouse c)].

(** One iteration of [_analysis_loop]. *)
Definition analysis_iteration (c : Clock) (s : Monitor) : Monitor :=
  if running s then exec_statements (iteration_body c) s else s.

(** What can happen to a monitor: starting or stopping it, a capture
    callback, or one iteration of the analysis loop. *)
Inductive Event :=
  | Start
  | Stop
  | KeyPress (key : RawKey) (t : Q)
  | KeyRelease (key : RawKey) (t : Q)
  | MouseMove (x y : Z) (t : Q)
  | MouseClick (x y : Z) (btn : string) (pressed : bool) (t : Q)
  | MouseScroll (x y dx dy : Z) (t : Q)
  | Tick (c : Clock).

Definition step (s : Monitor) (e : Event) : Monitor :=
  match e with
  | Start => start_monitoring s
  | Stop => stop_monitoring s
  | KeyPress key t => on_key_press key t s
  | KeyRelease key t => on_key_release key t s
  | MouseMove x y t => on_mouse_move x y t s
  | MouseClick x y btn pressed t => on_mouse_click x y btn pressed t s
  | MouseScroll x y dx dy t => on_mouse_scroll x y dx dy t s
  | Tick c => analysis_iteration c s
  end.

Definition run (events : list Event) (s : Monitor) : Monitor :=
  fold_left step events s.

End WithSqrt.

(** ** Notions used to state the properties *)

(** An executable square root, exact on perfect squares, for running the
    model on concrete inputs; the general results hold for every [fsqrt]. *)
Definition sqrt_floor (x : Q) : Q := Z.sqrt (Qfloor x) # 1.

(** Timestamps that never decrease along a buffer. *)
Fixpoint nondecreasing (ts : list Q) : Prop :=
  match ts with
  | a :: (b :: _) as rest => a <= b /\ nondecreasing rest
  | _ => True
  end.

(** Two events that differ at most in the literal key: the same callback at
    the same clock reading, with the same classification of the key. *)
Inductive same_classification : Event -> Event -> Prop :=
  | sc_press k1 k2 t :
      classify_key k1 = classify_key k2 ->
      same_classification (KeyPress k1 t) (KeyPress k2 t)
  | sc_release k1 k2 t :
      classify_key k1 = classify_key k2 ->
      same_classification (KeyRelease k1 t) (KeyRelease k2 t)
  | sc_same e : same_classification e e.

(** The monitor state without its pending-press table. *)
Definition erase_pending (s : Monitor) : Monitor := set_key_press_times ∅ s.

Definition fast (interval : Q) : bool := Qltb interval burst_threshold.

(** Follows the specification: [len] intervals from position [start] form a
    maximal run of at least 3 consecutive intervals each below the burst
    threshold (the interval before the run, if any, and the interval after
    it, if any, are not below the threshold). *)
Definition maximal_fast_run (intervals : list Q) (start len : nat) : bool :=
  let run_ := firstn len (skipn start intervals) in
  (3 <=? len)%nat && (length run_ =? len)%nat && forallb fast run_
  && match start with
     | O => true
     | S p => negb (fast (nth p intervals 0))
     end
  && match nth_error intervals (start + len) with
     | Some next => negb (fast next)
     | None => true
     end.

(** Follows the specification: the number of maximal runs of at least 3
    consecutive fast intervals. *)
Definition count_maximal_fast_runs (intervals : list Q) : nat :=
  length
    (List.filter (fun p => maximal_fast_run intervals (fst p) (snd p))
       (list_prod (seq 0 (length intervals)) (seq 0 (S (length intervals))))).

(** Two snapshots with the same value in every field. *)
Definition snapshot_same (a b : Snapshot) : Prop :=
  snap_timestamp a == snap_timestamp b
  /\ snap_session_duration a == snap_session_duration b
  /\ snap_time_since_last_activity a == snap_time_since_last_activity b
  /\ snap_is_inactive a = snap_is_inactive b
  /\ snap_typing_metrics a = snap_typing_metrics b
  /\ snap_mouse_metrics a = snap_mouse_metrics b
  /\ snap_total_keystrokes a = snap_total_keystrokes b
  /\ snap_total_mouse_events a = snap_total_mouse_events b
  /\ snap_app_usage a = snap_app_usage b.

(** What a reader takes from [get_current_metrics] besides the clock-derived
    fields: the two metrics and the two counters. *)
Definition metrics_view (snap : Snapshot) : TypingMetrics * MouseMetrics * Z * Z :=
  (snap_typing_metrics snap, snap_mouse_metrics snap,
   snap_total_keystrokes snap, snap_total_mouse_events snap).

(** A reader scheduled after the first [k] statements of an iteration. *)
Definition read_during (fsqrt : Q -> Q) (c : Clock) (k : nat) (t_read : Q)
    (s : Monitor) : Snapshot :=
  get_current_metrics t_read (exec_statements fsqrt (firstn k (iteration_body c)) s).

(** The reader's view is the one in place before the iteration or the one in
    place after it. *)
Definition single_tick_view (fsqrt : Q -> Q) (c : Clock) (k : nat) (t_read : Q)
    (s : Monitor) : Prop :=
  metrics_view (read_during fsqrt c k t_read s)
    = metrics_view (get_current_metrics t_read s)
  \/ metrics_view (read_during fsqrt c k t_read s)
    = metrics_view (get_current_metrics t_read (analysis_iteration fsqrt c s)).

(** No keystroke record, queued or buffered, carries the timestamp 0. *)
Definition nonzero_timestamps (s : Monitor) : Prop :=
  Forall (fun k => ~ ks_timestamp k == 0) (q_items (keystroke_queue s))
  /\ Forall (fun k => ~ ks_timestamp k == 0) (keystroke_data s).

(** Both queues are as [__init__] builds them: without a bound. *)
Definition unbounded_queues (s : Monitor) : Prop :=
  q_maxsize (keystroke_queue s) = 0%Z /\ q_maxsize (mouse_queue s) = 0%Z.

Definition is_click (m : MouseData) : bool := Action_eqb (action m) click.

(** The ranges documented for [keystroke_variance] and
    [rhythm_consistency]. *)
Definition typing_in_range (m : TypingMetrics) : Prop :=
  0 <= keystroke_variance m /\ 0 <= rhythm_consistency m <= 100.

(** No record of either retention buffer is older than [cutoff]. *)
Definition none_older_than (cutoff : Q) (s : Monitor) : Prop :=
  Forall (fun k => ~ ks_timestamp k < cutoff) (keystroke_data s)
  /\ Forall (fun m => ~ md_timestamp m < cutoff) (mouse_data s).

(** What draining the queues leaves as it was: everything but the buffers,
    the counters, [last_activity] and the queued items. *)
Definition drain_frame (s s' : Monitor) : Prop :=
  analysis_window s' = analysis_window s
  /\ inactivity_threshold s' = inactivity_threshold s
  /\ data_retention s' = data_retention s
  /\ key_press_times s' = key_press_times s
  /\ app_usage s' = app_usage s
  /\ running s' = running s
  /\ typing (current_metrics s') = typing (current_metrics s)
  /\ mouse (current_metrics s') = mouse (current_metrics s)
  /\ session_start (current_metrics s') = session_start (current_metrics s)
  /\ q_maxsize (keystroke_queue s') = q_maxsize (keystroke_queue s)
  /\ q_maxsize (mouse_queue s') = q_maxsize (mouse_queue s).

(** Every sequence of at most [n] intervals drawn from a fast one (50 ms)
    and a slow one (1 s). *)
Fixpoint interval_patterns (n : nat) : list (list Q) :=
  match n with
  | O => [[]]
  | S n' =>
      [] :: flat_map (fun l => [(1 # 20) :: l; 1 :: l]) (interval_patterns n')
  end.

(** ** Concrete inputs *)

Definition key_a : RawKey := mkRawKey (Some "a"%string) "'a'"%string.
Definition key_b : RawKey := mkRawKey (Some "b"%string) "'b'"%string.

(** [BehavioralMonitor()] with the default configuration, built at time 0. *)
Definition monitor0 : Monitor := init 60 30 3600 0 0.

Definition letter_at (t : Q) : KeystrokeData := mkKeystrokeData t letter false None.

(** Four letters 50 ms apart: three consecutive fast intervals, at the end
    of the window. *)
Definition burst_input : Monitor :=
  set_keystroke_data
    [letter_at 100; letter_at (2001 # 20); letter_at (2002 # 20); letter_at (2003 # 20)]
    (start_monitoring monitor0).

Definition whole_clock (t : Q) : Clock := mkClock t t t t.

(** A buffer holding a single letter typed at time 100. *)
Definition one_letter : Monitor := set_keystroke_data [letter_at 100] monitor0.

(** Buffers whose oldest records are past a retention of 3600 s at time
    4000. *)
Definition aged_buffers : Monitor :=
  set_mouse_data
    [mkMouseData 200 0 0 move None None; mkMouseData 3000 1 0 move None None]
    (set_keystroke_data [letter_at 100; letter_at 300; letter_at 500] monitor0).

(** A key pressed at time 100 and moved into the buffer by the analysis loop
    half a second later. *)
Definition pressed_and_buffered : Monitor :=
  process_queued_data (201 # 2) (on_key_press key_a 100 (start_monitoring monitor0)).

(** Two sessions that differ only in the key typed: a press, an analysis
    iteration, the release, a second press and a second iteration. *)
Definition session_of (key : RawKey) : list Event :=
  [Start; KeyPress key 1; Tick (whole_clock 2); KeyRelease key 3;
   KeyPress key 4; Tick (whole_clock 5)].

(** A started monitor with one key press and one button press queued. *)
Definition queued_input : Monitor :=
  run sqrt_floor
    [Start; KeyPress key_a 1; MouseClick 5 5 "Button.left"%string true 2] monitor0.

(** ** The fatigue query *)

(** The [typing_fatigue] entry of [get_fatigue_indicators]. *)
Record TypingFatigue := mkTypingFatigue {
  low_wpm : bool;
  high_pause_frequency : bool;
  irregular_rhythm : bool;
  high_fatigue_score : bool
}.

(** The [mouse_fatigue] entry. *)
Record MouseFatigue := mkMouseFatigue {
  low_activity : bool;
  jerky_movements : bool;
  excessive_idle : bool
}.

Record FatigueIndicators := mkFatigueIndicators {
  typing_fatigue : TypingFatigue;
  mouse_fatigue : MouseFatigue;
  overall_fatigue_level : Q
}.

(** [get_fatigue_indicators]. *)
Definition get_fatigue_indicators (s : Monitor) : FatigueIndicators :=
  let typing_metrics := typing (current_metrics s) in
  let mouse_metrics := mouse (current_metrics s) in
  mkFatigueIndicators
    (mkTypingFatigue
       (Qltb (wpm typing_metrics) 30)
       (Qltb 20 (pause_frequency typing_metrics))
       (Qltb (rhythm_consistency typing_metrics) 50)
       (Qltb 70 (fatigue_score typing_metrics)))
    (mkMouseFatigue
       (Qltb (active_time_percentage mouse_metrics) 30)
       (Qltb (movement_smoothness mouse_metrics) 50)
       (5 <? idle_periods mouse_metrics)%nat)
    ((fatigue_score typing_metrics
      + (100 - active_time_percentage mouse_metrics)) / 2).

(** ** The exported document *)

(** The [session_info] entry of [export_data]. *)
Record SessionInfo := mkSessionInfo {
  start_time : Q;
  export_time : Q;
  info_total_keystrokes : Z;
  info_total_mouse_events : Z
}.

(** The [configuration] entry. *)
Record Configuration := mkConfiguration {
  cfg_analysis_window : Q;
  cfg_inactivity_threshold : Q;
  cfg_data_retention : Q
}.

(** The dictionary [export_data] hands to [json.dump]. *)
Record ExportData := mkExportData {
  session_info : SessionInfo;
  exported_metrics : Snapshot;
  fatigue_indicators : FatigueIndicators;
  configuration : Configuration
}.

(** The dictionary built by [export_data]: [t_export] is the clock reading of
    the [export_time] entry, [t_metrics] the one [get_current_metrics] takes
    next. *)
Definition export_data (t_export t_metrics : Q) (s : Monitor) : ExportData :=
  mkExportData
    (mkSessionInfo (session_start (current_metrics s)) t_export
       (total_keystrokes (current_metrics s))
       (total_mouse_events (current_metrics s)))
    (get_current_metrics t_metrics s)
    (get_fatigue_indicators s)
    (mkConfiguration (analysis_window s) (inactivity_threshold s) (data_retention s)).

(** ** Application monitoring *)

(** What [_monitor_applications] reads and writes: [current_app],
    [app_usage] and [app_start_time]. *)
Record AppTracker := mkAppTracker {
  current_app : option string;
  tracked_usage : gmap string Q;
  app_start_time : Q
}.

(** One iteration of [_monitor_applications], at clock reading
    [current_time]; [app_usage] is a [defaultdict(float)], so a missing entry
    reads as 0. *)
Definition monitor_applications_iteration (a : AppTracker) (current_time : Q)
    : AppTracker :=
  let usage :=
    match current_app a with
    | Some app =>
        if truthy app
        then <[app := default 0 (tracked_usage a !! app)
                      + (current_time - app_start_time a)]> (tracked_usage a)
        else tracked_usage a
    | None => tracked_usage a
    end in
  mkAppTracker (current_app a) usage current_time.

Definition monitor_applications (readings : list Q) (a : AppTracker) : AppTracker :=
  fold_left monitor_applications_iteration readings a.

(** ** The installation test *)

(** [check_python_version] of [test_script.py], on the [major] and [minor]
    fields of [sys.version_info]. *)
Definition check_python_version (major minor : Z) : bool :=
  if (major <? 3)%Z || ((major =? 3)%Z && (minor <? 7)%Z) then false else true.

(** ** The key-press callback over any classifier *)

(** [_on_key_press] with the call [self._classify_key(key)] taken as a
    parameter, so that a statement about it does not depend on the character
    tables behind Python's [str] methods. *)
Definition on_key_press_with (classify : RawKey -> KeyType * bool)
    (key : RawKey) (timestamp : Q) (s : Monitor) : Monitor :=
  if negb (running s) then s
  else
    let '(kt, is_mod) := classify key in
    let key_id := key_str key in
    let s1 := set_key_press_times (<[key_id := timestamp]> (key_press_times s)) s in
    let keystroke := mkKeystrokeData timestamp kt is_mod None in
    set_keystroke_queue (try_put (keystroke_queue s1) keystroke) s1.

(** [step] and [run] with that callback; every other event is handled as in
    [step]. *)
Definition step_with (classify : RawKey -> KeyType * bool) (fsqrt : Q -> Q)
    (s : Monitor) (e : Event) : Monitor :=
  match e with
  | KeyPress key t => on_key_press_with classify key t s
  | _ => step fsqrt s e
  end.

Definition run_with (classify : RawKey -> KeyType * bool) (fsqrt : Q -> Q)
    (events : list Event) (s : Monitor) : Monitor :=
  fold_left (step_with classify fsqrt) events s.

(** Two events that differ at most in the literal key, for a classifier
    [classify]: the same callback at the same clock reading, on keys that
    [classify] does not tell apart.  A release may name any key. *)
Inductive same_classification_with (classify : RawKey -> KeyType * bool)
    : Event -> Event -> Prop :=
  | scw_press k1 k2 t :
      classify k1 = classify k2 ->
      same_classification_with classify (KeyPress k1 t) (KeyPress k2 t)
  | scw_release k1 k2 t :
      classify k1 = classify k2 ->
      same_classification_with classify (KeyRelease k1 t) (KeyRelease k2 t)
  | scw_same e : same_classification_with classify e e.

(** A record without its [press_duration]. *)
Definition forget_duration (k : KeystrokeData) : KeystrokeData :=
  mkKeystrokeData (ks_timestamp k) (key_type k) (is_modifier k) None.

(** The monitor state without the two things that are computed through the
    identity of a key: the pending-press table and the [press_duration] of
    the buffered records. *)
Definition classification_view (s : Monitor) : Monitor :=
  set_keystroke_data (map forget_duration (keystroke_data s))
    (set_key_press_times ∅ s).

(** ** Notions used to state further properties *)

(** A score between 0 and 100. *)
Definition percent (x : Q) : Prop := 0 <= x <= 100.

Definition is_start (e : Event) : bool :=
  match e with
  | Start => true
  | _ => false
  end.

(** The last [maxlen] items of a list: what a [deque(maxlen=10000)] holds
    after the items were appended one by one. *)
Definition keep_last {A} (l : list A) : list A :=
  skipn (Z.to_nat (Z.of_nat (length l) - maxlen)) l.

(** Neither retention buffer holds more than [maxlen] records. *)
Definition within_capacity (s : Monitor) : Prop :=
  (Z.of_nat (length (keystroke_data s)) <= maxlen)%Z
  /\ (Z.of_nat (length (mouse_data s)) <= maxlen)%Z.

Definition is_key_press (e : Event) : bool :=
  match e with
  | KeyPress _ _ => true
  | _ => false
  end.

(** The pointer events that enqueue a record: moves, scrolls and button
    presses. *)
Definition is_pointer_record (e : Event) : bool :=
  match e with
  | MouseMove _ _ _ => true
  | MouseClick _ _ _ pressed _ => pressed
  | MouseScroll _ _ _ _ _ => true
  | _ => false
  end.

(** The [running] flag after an event. *)
Definition running_after (is_running : bool) (e : Event) : bool :=
  match e with
  | Start => true
  | Stop => false
  | _ => is_running
  end.

(** The number of events satisfying [p] that arrive while the monitor is
    running, [is_running] being the flag before the first event. *)
Fixpoint count_accepted (p : Event -> bool) (is_running : bool)
    (events : list Event) : nat :=
  match events with
  | [] => O
  | e :: rest =>
      ((if is_running && p e then 1 else 0)
       + count_accepted p (running_after is_running e) rest)%nat
  end.

(** The clock reading a capture callback stamps on the record it enqueues. *)
Definition capture_time (e : Event) : list Q :=
  match e with
  | KeyPress _ t => [t]
  | MouseMove _ _ t => [t]
  | MouseClick _ _ _ _ t => [t]
  | MouseScroll _ _ _ _ t => [t]
  | _ => []
  end.

(** The clock readings of the capture callbacks of a run, in order. *)
Definition capture_times (events : list Event) : list Q :=
  flat_map capture_time events.

(** The timestamps of the keystroke records a monitor holds, buffered ones
    first, then queued ones. *)
Definition keystroke_times (s : Monitor) : list Q :=
  map ks_timestamp (keystroke_data s ++ q_items (keystroke_queue s)).

Definition mouse_times (s : Monitor) : list Q :=
  map md_timestamp (mouse_data s ++ q_items (mouse_queue s)).

(** A record that is not older than [cutoff]. *)
Definition in_retention {A} (ts : A -> Q) (cutoff : Q) (x : A) : bool :=
  negb (Qltb (ts x) cutoff).

(** The ranges of the typing scores other than the two of
    [typing_in_range]. *)
Definition typing_scores_in_range (m : TypingMetrics) : Prop :=
  0 <= wpm m
  /\ raw_wpm m = wpm m
  /\ percent (accuracy_score m)
  /\ percent (fatigue_score m)
  /\ percent (health_score m)
  /\ percent (pause_frequency m).

(** The ranges of the pointer scores that do not depend on the square
    root. *)
Definition mouse_scores_in_range (m : MouseMetrics) : Prop :=
  percent (movement_smoothness m) /\ percent (active_time_percentage m).

(** The filter of [recent_mouse]. *)
Definition in_window (window_start : Q) (md : MouseData) : bool :=
  Qle_bool window_start (md_timestamp md).

(** ** Further concrete inputs *)

Definition key_shift : RawKey := mkRawKey None "Key.shift"%string.

(** A monitor configured with [analysis_window = 0] that holds one click
    stamped 10. *)
Definition zero_window : Monitor :=
  set_mouse_data [mkMouseData 10 0 0 click (Some "Button.left"%string) None]
    (init 0 30 3600 0 0).

(** Keystrokes 200 ms apart, as the buffer holds them at time 101. *)
Definition steady_typing : Monitor :=
  set_keystroke_data
    [letter_at 100; letter_at (501 # 5); letter_at (502 # 5); letter_at (503 # 5)]
    monitor0.

(** A tracker that has watched the application [editor] since time 10. *)
Definition editor_tracker : AppTracker :=
  mkAppTracker (Some "editor"%string) ∅ 10.

(** A session whose callbacks read a clock that never goes back. *)
Definition monotone_session : list Event :=
  [Start; KeyPress key_a 1; MouseMove 0 0 2; Tick (whole_clock 3);
   KeyPress key_b 4; KeyRelease key_b 5; MouseScroll 0 0 0 1 6;
   Tick (whole_clock 7)].

(** A running monitor with two key presses and a pointer move queued. *)
Definition two_presses_queued : Monitor :=
  run sqrt_floor [Start; KeyPress key_a 1; KeyPress key_b 2; MouseMove 3 4 (5 # 2)]
    monitor0.

(** * Properties *)

(** ** Comparisons, [max], [min] and [round] *)

Lemma Qltb_lt (a b : Q) : Qltb a b = true <-> a < b.
Proof.
  unfold Qltb. rewrite negb_true_iff. split.
  - intros H. apply Qnot_le_lt. intros Hle.
    apply Qle_bool_iff in Hle. congruence.
  - intros H. destruct (Qle_bool b a) eqn:E; [|reflexivity].
    apply Qle_bool_iff in E. lra.
Qed.

Lemma Qltb_ge (a b : Q) : Qltb a b = false <-> b <= a.
Proof.
  unfold Qltb. rewrite negb_false_iff. apply Qle_bool_iff.
Qed.

Lemma py_max_lower (a b : Q) : a <= py_max a b.
Proof.
  unfold py_max. destruct (Qltb a b) eqn:E; [|lra].
  apply Qltb_lt in E. lra.
Qed.

Lemma py_max_upper (a b c : Q) : a <= c -> b <= c -> py_max a b <= c.
Proof. unfold py_max. destruct (Qltb a b); auto. Qed.

Lemma pow10_scale_pos (n : nat) : 0 < Zpos (pow10 n) # 1.
Proof. unfold Qlt. simpl. lia. Qed.

Lemma Qmake_nonneg (z : Z) (p : positive) : (0 <= z)%Z -> 0 <= z # p.
Proof. intros H. unfold Qle. simpl. lia. Qed.

Lemma Qmake_le_int (m k : Z) (p : positive) :
  (m <= k * Zpos p)%Z -> m # p <= inject_Z k.
Proof. intros H. unfold Qle, inject_Z. simpl. lia. Qed.

Lemma above_half_next (f K : Z) :
  (f # 1) + (1 # 2) <= inject_Z K -> (f + 1 <= K)%Z.
Proof. unfold Qle, Qplus, inject_Z. simpl. lia. Qed.

Lemma py_round_nonneg (x : Q) (n : nat) : 0 <= x -> 0 <= py_round x n.
Proof.
  intros Hx. unfold py_round.
  set (y := x * (Zpos (pow10 n) # 1)).
  assert (Hy : 0 <= y).
  { unfold y. apply Qmult_le_0_compat; [exact Hx|].
    apply Qlt_le_weak, pow10_scale_pos. }
  assert (Hf : (0 <= Qfloor y)%Z).
  { change 0%Z with (Qfloor 0). apply Qfloor_resp_le, Hy. }
  destruct (Qltb (y - (Qfloor y # 1)) (1 # 2)).
  - apply Qmake_nonneg, Hf.
  - destruct (Qltb (1 # 2) (y - (Qfloor y # 1))).
    + apply Qmake_nonneg. lia.
    + destruct (Z.even (Qfloor y)); apply Qmake_nonneg; lia.
Qed.

Lemma py_round_le_int (x : Q) (n : nat) (k : Z) :
  x <= inject_Z k -> py_round x n <= inject_Z k.
Proof.
  intros Hx. unfold py_round.
  set (y := x * (Zpos (pow10 n) # 1)).
  set (K := (k * Zpos (pow10 n))%Z).
  assert (Hy : y <= inject_Z K).
  { unfold y, K. rewrite inject_Z_mult.
    apply Qmult_le_compat_r; [exact Hx|].
    apply Qlt_le_weak, pow10_scale_pos. }
  assert (Hf : (Qfloor y <= K)%Z).
  { rewrite <- (Qfloor_Z K). apply Qfloor_resp_le, Hy. }
  assert (Hup : Qltb (y - (Qfloor y # 1)) (1 # 2) = false -> (Qfloor y + 1 <= K)%Z).
  { intros E. apply Qltb_ge in E. apply above_half_next. lra. }
  destruct (Qltb (y - (Qfloor y # 1)) (1 # 2)) eqn:E1.
  - apply Qmake_le_int, Hf.
  - specialize (Hup eq_refl).
    destruct (Qltb (1 # 2) (y - (Qfloor y # 1))).
    + apply Qmake_le_int, Hup.
    + destruct (Z.even (Qfloor y)); apply Qmake_le_int; fold K; lia.
Qed.

(** ** Mean and variance *)

Lemma Qsquare_nonneg (x : Q) : 0 <= x * x.
Proof.
  destruct x as [p q]. unfold Qle, Qmult. simpl.
  rewrite Z.mul_1_r. apply Z.square_nonneg.
Qed.

Lemma Qsum_squares_nonneg (m : Q) (l : list Q) :
  0 <= Qsum (map (fun x => (x - m) * (x - m)) l).
Proof.
  induction l as [|a l IH]; simpl.
  - lra.
  - pose proof (Qsquare_nonneg (a - m)). lra.
Qed.

Lemma variance_nonneg (l : list Q) : (1 < length l)%nat -> 0 <= variance l.
Proof.
  intros Hlen. unfold variance.
  apply Qle_shift_div_l.
  - unfold Qlen, Qlt, Qminus, Qplus, Qopp. simpl. lia.
  - rewrite Qmult_0_l. apply Qsum_squares_nonneg.
Qed.

(** ** Typing metrics: the degenerate window and the documented ranges *)

Lemma qualifies_spec (window_start : Q) (ks : KeystrokeData) :
  qualifies window_start ks = true
  <-> window_start <= ks_timestamp ks /\ is_modifier ks = false.
Proof.
  unfold qualifies. rewrite andb_true_iff, negb_true_iff, Qle_bool_iff.
  reflexivity.
Qed.

(** C8: when fewer than 2 non-modifier keystroke records lie inside the
    analysis window, [_calculate_typing_metrics] returns the value whose
    fields are all 0 except [health_score], which is 50. *)
Theorem degenerate_window_metrics (now : Q) (s : Monitor) :
  (count_if (qualifies (now - analysis_window s)) (keystroke_data s) < 2)%nat ->
  calculate_typing_metrics now s = mkTypingMetrics 0 0 0 0 0 50 0 0 0 0.
Proof.
  intros Hfew. unfold calculate_typing_metrics, count_if in *.
  apply Nat.ltb_lt in Hfew. rewrite Hfew. reflexivity.
Qed.

Lemma degenerate_window_metrics_witness :
  (count_if (qualifies (101 - analysis_window one_letter))
     (keystroke_data one_letter) < 2)%nat
  /\ calculate_typing_metrics 101 one_letter = mkTypingMetrics 0 0 0 0 0 50 0 0 0 0.
Proof.
  assert (H : (count_if (qualifies (101 - analysis_window one_letter))
                 (keystroke_data one_letter) < 2)%nat).
  { vm_compute. lia. }
  split; [exact H | exact (degenerate_window_metrics 101 one_letter H)].
Defined.

Lemma calculate_typing_metrics_in_range (now : Q) (s : Monitor) :
  typing_in_range (calculate_typing_metrics now s).
Proof.
  unfold typing_in_range, calculate_typing_metrics.
  destruct (length _ <? 2)%nat; [simpl; lra|].
  destruct (List.filter _ _) as [|first rest]; [simpl; lra|].
  cbv zeta. cbn [keystroke_variance rhythm_consistency].
  set (ivs := intervals_of (map ks_timestamp (first :: rest))).
  assert (Hvar : 0 <= (if (1 <? length ivs)%nat then variance ivs else 0)).
  { destruct (1 <? length ivs)%nat eqn:E; [|lra].
    apply variance_nonneg, Nat.ltb_lt, E. }
  set (v := if (1 <? length ivs)%nat then variance ivs else 0) in *.
  split; [apply py_round_nonneg; exact Hvar|].
  split.
  - apply py_round_nonneg, py_max_lower.
  - apply (py_round_le_int _ 2 100), py_max_upper; [unfold inject_Z; lra|].
    assert (0 <= v / max_variance).
    { apply Qle_shift_div_l; [reflexivity|]. lra. }
    assert (0 <= v / max_variance * 100) by (apply Qmult_le_0_compat; lra).
    unfold inject_Z. lra.
Qed.

(** ** Eviction *)

Lemma nondecreasing_tail (a : Q) (ts : list Q) :
  nondecreasing (a :: ts) -> nondecreasing ts.
Proof. destruct ts; simpl; tauto. Qed.

Lemma nondecreasing_lower_bound (a : Q) (ts : list Q) :
  nondecreasing (a :: ts) -> Forall (fun b => a <= b) ts.
Proof.
  revert a. induction ts as [|b ts IH]; intros a H; constructor.
  - apply H.
  - destruct H as [Hab Hrest].
    eapply Forall_impl; [apply (IH b Hrest)|].
    simpl. intros c Hc. lra.
Qed.

(** On a buffer in timestamp order the prefix trim leaves nothing older than
    the cutoff. *)
Lemma popleft_while_none_older {A} (ts : A -> Q) (cutoff : Q) (d : list A) :
  nondecreasing (map ts d) ->
  Forall (fun x => ~ ts x < cutoff) (popleft_while ts cutoff d).
Proof.
  induction d as [|x d IH]; intros Hsorted; simpl.
  - constructor.
  - change (nondecreasing (ts x :: map ts d)) in Hsorted.
    destruct (Qltb (ts x) cutoff) eqn:E.
    + apply IH. exact (nondecreasing_tail _ _ Hsorted).
    + apply Qltb_ge in E.
      pose proof (nondecreasing_lower_bound _ _ Hsorted) as Hlb.
      constructor; [lra|].
      rewrite Forall_map in Hlb.
      eapply Forall_impl; [exact Hlb|].
      simpl. intros y Hy. lra.
Qed.

(** C7: for buffers whose timestamps never decrease in append order, after
    [_clean_old_data] runs at time [now] neither retention buffer holds a
    record with [timestamp < now - data_retention]. *)
Theorem eviction_leaves_none_older (now : Q) (s : Monitor) :
  nondecreasing (map ks_timestamp (keystroke_data s)) ->
  nondecreasing (map md_timestamp (mouse_data s)) ->
  none_older_than (now - data_retention s) (clean_old_data now s).
Proof.
  intros Hk Hm. unfold none_older_than, clean_old_data. simpl. split.
  - apply popleft_while_none_older, Hk.
  - apply popleft_while_none_older, Hm.
Qed.

Lemma eviction_leaves_none_older_witness :
  none_older_than (4000 - data_retention aged_buffers)
    (clean_old_data 4000 aged_buffers)
  /\ keystroke_data (clean_old_data 4000 aged_buffers) = [letter_at 500]
  /\ mouse_data (clean_old_data 4000 aged_buffers)
     = [mkMouseData 3000 1 0 move None None].
Proof.
  split; [|split; reflexivity].
  apply (eviction_leaves_none_older 4000 aged_buffers).
  - simpl. repeat split; unfold Qle; simpl; lia.
  - simpl. repeat split; unfold Qle; simpl; lia.
Defined.

(** ** What each operation leaves unchanged *)

Lemma fold_left_preserves {A B} (f : A -> B -> A) (P : A -> Prop) (l : list B) :
  (forall a b, P a -> P (f a b)) -> forall a, P a -> P (fold_left f l a).
Proof.
  intros Hstep. induction l as [|b l IH]; intros a Ha; simpl; auto.
Qed.

Lemma drain_frame_refl (s : Monitor) : drain_frame s s.
Proof. unfold drain_frame. repeat split. Qed.

Lemma drain_frame_trans (s1 s2 s3 : Monitor) :
  drain_frame s1 s2 -> drain_frame s2 s3 -> drain_frame s1 s3.
Proof.
  unfold drain_frame. intros H12 H23.
  repeat match goal with H : _ /\ _ |- _ => destruct H end.
  repeat split; congruence.
Qed.

Lemma drain_keystrokes_frame (t : Q) (items : list KeystrokeData) (s : Monitor) :
  drain_frame s (fold_left (drain_keystroke t) items s).
Proof.
  apply (fold_left_preserves _ (drain_frame s)); [|apply drain_frame_refl].
  intros a b Ha. eapply drain_frame_trans; [exact Ha|].
  unfold drain_frame. repeat split.
Qed.

Lemma drain_mice_frame (t : Q) (items : list MouseData) (s : Monitor) :
  drain_frame s (fold_left (drain_mouse t) items s).
Proof.
  apply (fold_left_preserves _ (drain_frame s)); [|apply drain_frame_refl].
  intros a b Ha. eapply drain_frame_trans; [exact Ha|].
  unfold drain_frame. repeat split.
Qed.

Lemma process_queued_data_frame (t : Q) (s : Monitor) :
  drain_frame s (process_queued_data t s).
Proof.
  unfold process_queued_data.
  eapply drain_frame_trans; [|apply drain_mice_frame].
  eapply drain_frame_trans; [|unfold drain_frame; repeat split].
  eapply drain_frame_trans; [|apply drain_keystrokes_frame].
  unfold drain_frame. repeat split.
Qed.

Lemma try_put_maxsize {A} (q : PyQueue A) (x : A) :
  q_maxsize (try_put q x) = q_maxsize q.
Proof.
  unfold try_put, put_nowait. destruct (_ && _); reflexivity.
Qed.

Lemma try_put_unbounded {A} (q : PyQueue A) (x : A) :
  q_maxsize q = 0%Z -> q_items (try_put q x) = q_items q ++ [x].
Proof.
  intros H. unfold try_put, put_nowait. rewrite H. reflexivity.
Qed.

Section Runs.

Variable fsqrt : Q -> Q.

Lemma analysis_iteration_unfold (c : Clock) (s : Monitor) :
  analysis_iteration fsqrt c s =
  if running s
  then store_mouse fsqrt (t_mouse c)
         (store_typing (t_typing c)
            (clean_old_data (t_clean c) (process_queued_data (t_process c) s)))
  else s.
Proof. reflexivity. Qed.

Lemma store_mouse_typing (t : Q) (s : Monitor) :
  typing (current_metrics (store_mouse fsqrt t s)) = typing (current_metrics s).
Proof. unfold store_mouse. destruct (calculate_mouse_metrics _ _ _); reflexivity. Qed.

Lemma store_mouse_queues (t : Q) (s : Monitor) :
  keystroke_queue (store_mouse fsqrt t s) = keystroke_queue s
  /\ mouse_queue (store_mouse fsqrt t s) = mouse_queue s
  /\ keystroke_data (store_mouse fsqrt t s) = keystroke_data s
  /\ mouse_data (store_mouse fsqrt t s) = mouse_data s
  /\ running (store_mouse fsqrt t s) = running s.
Proof.
  unfold store_mouse. destruct (calculate_mouse_metrics _ _ _); repeat split.
Qed.

(** *** The queues stay unbounded *)

Lemma step_unbounded (s : Monitor) (e : Event) :
  unbounded_queues s -> unbounded_queues (step fsqrt s e).
Proof.
  unfold unbounded_queues. intros [Hk Hm]. destruct e; simpl.
  - unfold start_monitoring. destruct (running s); auto.
  - unfold stop_monitoring. destruct (negb (running s)); auto.
  - unfold on_key_press. destruct (negb (running s)); auto.
    destruct (classify_key key). simpl. rewrite try_put_maxsize. auto.
  - unfold on_key_release. destruct (negb (running s)); auto.
    destruct (key_press_times s !! key_str key); auto. simpl.
    destruct (last (keystroke_data s)); auto.
    destruct (Qeq_bool _ _); auto.
  - unfold on_mouse_move. destruct (negb (running s)); auto.
    simpl. rewrite try_put_maxsize. auto.
  - unfold on_mouse_click. destruct (negb (running s)); auto.
    destruct pressed; auto. simpl. rewrite try_put_maxsize. auto.
  - unfold on_mouse_scroll. destruct (negb (running s)); auto.
    simpl. rewrite try_put_maxsize. auto.
  - rewrite analysis_iteration_unfold. destruct (running s); auto.
    destruct (store_mouse_queues (t_mouse c)
                (store_typing (t_typing c)
                   (clean_old_data (t_clean c)
                      (process_queued_data (t_process c) s))))
      as (Ek & Em & _).
    rewrite Ek, Em. simpl.
    destruct (process_queued_data_frame (t_process c) s)
      as (_ & _ & _ & _ & _ & _ & _ & _ & _ & Fk & Fm).
    rewrite Fk, Fm. auto.
Qed.

Lemma init_unbounded (aw it dr t0 t1 : Q) : unbounded_queues (init aw it dr t0 t1).
Proof. split; reflexivity. Qed.

Lemma run_unbounded (events : list Event) (s : Monitor) :
  unbounded_queues s -> unbounded_queues (run fsqrt events s).
Proof.
  unfold run. apply (fold_left_preserves _ unbounded_queues).
  intros a b. apply step_unbounded.
Qed.

(** *** The stored typing metrics stay in range *)

Lemma step_typing_in_range (s : Monitor) (e : Event) :
  typing_in_range (typing (current_metrics s)) ->
  typing_in_range (typing (current_metrics (step fsqrt s e))).
Proof.
  intros H. destruct e; simpl.
  - unfold start_monitoring. destruct (running s); auto.
  - unfold stop_monitoring. destruct (negb (running s)); auto.
  - unfold on_key_press. destruct (negb (running s)); auto.
    destruct (classify_key key). auto.
  - unfold on_key_release. destruct (negb (running s)); auto.
    destruct (key_press_times s !! key_str key); auto. simpl.
    destruct (last (keystroke_data s)); auto.
    destruct (Qeq_bool _ _); auto.
  - unfold on_mouse_move. destruct (negb (running s)); auto.
  - unfold on_mouse_click. destruct (negb (running s)); auto.
    destruct pressed; auto.
  - unfold on_mouse_scroll. destruct (negb (running s)); auto.
  - rewrite analysis_iteration_unfold. destruct (running s); auto.
    rewrite store_mouse_typing. simpl.
    apply calculate_typing_metrics_in_range.
Qed.

(** C9: the metrics computed by [_calculate_typing_metrics] from any buffer
    of keystroke records, and the typing metrics stored after any sequence
    of events, satisfy [keystroke_variance >= 0] and
    [0 <= rhythm_consistency <= 100]. *)
Theorem typing_metrics_in_range :
  (forall (now : Q) (s : Monitor),
      0 <= keystroke_variance (calculate_typing_metrics now s)
      /\ 0 <= rhythm_consistency (calculate_typing_metrics now s) <= 100)
  /\ (forall (aw it dr t0 t1 : Q) (events : list Event),
        typing_in_range
          (typing (current_metrics (run fsqrt events (init aw it dr t0 t1))))).
Proof.
  split.
  - intros now s. apply calculate_typing_metrics_in_range.
  - intros aw it dr t0 t1 events. unfold run.
    apply (fold_left_preserves _
             (fun s => typing_in_range (typing (current_metrics s)))).
    + intros a b. apply step_typing_in_range.
    + unfold typing_in_range. simpl. lra.
Qed.

End Runs.

(** ** Pointer button events *)

Lemma count_if_snoc {A} (p : A -> bool) (l : list A) (x : A) :
  count_if p (l ++ [x]) = (count_if p l + (if p x then 1 else 0))%nat.
Proof.
  unfold count_if. rewrite List.filter_app, length_app. simpl.
  destruct (p x); reflexivity.
Qed.

(** C10: a button event with [pressed = false] leaves the monitor state as it
    was; a button event with [pressed = true] on a running monitor enqueues
    one record with action [click]; so in every reachable state the number
    of queued click records grows by one for a press and not at all for a
    release. *)
Theorem only_presses_are_recorded (fsqrt : Q -> Q) :
  (forall x y btn t s, on_mouse_click x y btn false t s = s)
  /\ (forall x y btn t s,
        on_mouse_click x y btn true t s =
        if running s
        then enqueue_mouse (mkMouseData t x y click (Some btn) None) s
        else s)
  /\ (forall aw it dr t0 t1 events x y btn pressed t,
        let s := run fsqrt events (init aw it dr t0 t1) in
        count_if is_click (q_items (mouse_queue (on_mouse_click x y btn pressed t s)))
        = (count_if is_click (q_items (mouse_queue s))
           + (if pressed && running s then 1 else 0))%nat).
Proof.
  split; [|split].
  - intros. unfold on_mouse_click. destruct (negb (running s)); reflexivity.
  - intros. unfold on_mouse_click. destruct (running s); reflexivity.
  - intros. unfold on_mouse_click.
    assert (Hu : unbounded_queues s)
      by (apply run_unbounded, init_unbounded).
    destruct (running s); simpl.
    + destruct pressed; simpl; [|lia].
      rewrite try_put_unbounded by apply Hu.
      rewrite count_if_snoc. reflexivity.
    + rewrite andb_false_r. lia.
Qed.

(** ** The ingestion queues *)

Lemma run_cons (fsqrt : Q -> Q) (e : Event) (events : list Event) (s : Monitor) :
  run fsqrt (e :: events) s = run fsqrt events (step fsqrt s e).
Proof. reflexivity. Qed.

Lemma repeated_presses_grow (fsqrt : Q -> Q) (key : RawKey) (t : Q) (n : nat) :
  forall s, running s = true -> unbounded_queues s ->
  length (q_items (keystroke_queue (run fsqrt (repeat (KeyPress key t) n) s)))
  = (length (q_items (keystroke_queue s)) + n)%nat.
Proof.
  induction n as [|n IH]; intros s Hr Hu.
  - simpl. lia.
  - cbn [repeat]. rewrite run_cons, IH.
    + simpl. unfold on_key_press. rewrite Hr. simpl.
      destruct (classify_key key). simpl.
      rewrite try_put_unbounded by apply Hu.
      rewrite length_app. simpl. lia.
    + simpl. unfold on_key_press. rewrite Hr. simpl.
      destruct (classify_key key). exact Hr.
    + apply (step_unbounded fsqrt s (KeyPress key t) Hu).
Qed.

Lemma repeated_moves_grow (fsqrt : Q -> Q) (x y : Z) (t : Q) (n : nat) :
  forall s, running s = true -> unbounded_queues s ->
  length (q_items (mouse_queue (run fsqrt (repeat (MouseMove x y t) n) s)))
  = (length (q_items (mouse_queue s)) + n)%nat.
Proof.
  induction n as [|n IH]; intros s Hr Hu.
  - simpl. lia.
  - cbn [repeat]. rewrite run_cons, IH.
    + simpl. unfold on_mouse_move. rewrite Hr. simpl.
      rewrite try_put_unbounded by apply Hu.
      rewrite length_app. simpl. lia.
    + simpl. unfold on_mouse_move. rewrite Hr. exact Hr.
    + apply (step_unbounded fsqrt s (MouseMove x y t) Hu).
Qed.

(** Refutes C3 as stated: neither queue has a bound that its length never
    exceeds. *)
Lemma queues_have_no_capacity_bound :
  ~ (exists cap : nat, forall events,
        (length (q_items (keystroke_queue (run sqrt_floor events monitor0))) <= cap)%nat)
  /\ ~ (exists cap : nat, forall events,
        (length (q_items (mouse_queue (run sqrt_floor events monitor0))) <= cap)%nat).
Proof.
  split; intros [cap H].
  - specialize (H (Start :: repeat (KeyPress key_a 1) (S cap))).
    rewrite run_cons in H.
    rewrite repeated_presses_grow in H; [simpl in H; lia|reflexivity|split; reflexivity].
  - specialize (H (Start :: repeat (MouseMove 0 0 1) (S cap))).
    rewrite run_cons in H.
    rewrite repeated_moves_grow in H; [simpl in H; lia|reflexivity|split; reflexivity].
Qed.

(** C3, amended: the queues are built without a bound, so in every state the
    monitor can reach, running or not, [put_nowait] succeeds and appends; and
    on a running monitor each callback that enqueues appends its record to
    the queue, whatever the queue holds. *)
Theorem enqueue_always_appends (fsqrt : Q -> Q) (aw it dr t0 t1 : Q)
    (events : list Event) :
  let s := run fsqrt events (init aw it dr t0 t1) in
  (forall k, put_nowait (keystroke_queue s) k
             = Some (mkQueue 0 (q_items (keystroke_queue s) ++ [k])))
  /\ (forall m, put_nowait (mouse_queue s) m
                = Some (mkQueue 0 (q_items (mouse_queue s) ++ [m])))
  /\ (running s = true ->
      (forall key t,
          q_items (keystroke_queue (on_key_press key t s))
          = q_items (keystroke_queue s)
            ++ [mkKeystrokeData t (fst (classify_key key)) (snd (classify_key key))
                  None])
      /\ (forall x y t,
            q_items (mouse_queue (on_mouse_move x y t s))
            = q_items (mouse_queue s) ++ [mkMouseData t x y move None None])
      /\ (forall x y btn t,
            q_items (mouse_queue (on_mouse_click x y btn true t s))
            = q_items (mouse_queue s) ++ [mkMouseData t x y click (Some btn) None])
      /\ (forall x y dx dy t,
            length (q_items (mouse_queue (on_mouse_scroll x y dx dy t s)))
            = S (length (q_items (mouse_queue s))))).
Proof.
  intros s.
  assert (Hu : unbounded_queues s) by (apply run_unbounded, init_unbounded).
  destruct Hu as [Hk Hm].
  split; [|split].
  - intros k. unfold put_nowait. rewrite Hk. reflexivity.
  - intros m. unfold put_nowait. rewrite Hm. reflexivity.
  - intros Hr. repeat split; intros.
    + unfold on_key_press. rewrite Hr. simpl.
      destruct (classify_key key). simpl.
      apply try_put_unbounded, Hk.
    + unfold on_mouse_move. rewrite Hr. simpl. apply try_put_unbounded, Hm.
    + unfold on_mouse_click. rewrite Hr. simpl. apply try_put_unbounded, Hm.
    + unfold on_mouse_scroll. rewrite Hr. simpl.
      rewrite try_put_unbounded by apply Hm.
      rewrite length_app. simpl. lia.
Qed.

Lemma enqueue_always_appends_witness :
  q_items (keystroke_queue (on_key_press key_a 7 (run sqrt_floor [Start] monitor0)))
  = [letter_at 7]
  /\ put_nowait
       (keystroke_queue (run sqrt_floor [Start; KeyPress key_a 1; Stop] monitor0))
       (letter_at 9)
     = Some (mkQueue 0 [letter_at 1; letter_at 9]).
Proof.
  split.
  - exact (proj1 (proj2 (proj2
      (enqueue_always_appends sqrt_floor 60 30 3600 0 0 [Start])) eq_refl) key_a 7).
  - exact (proj1
      (enqueue_always_appends sqrt_floor 60 30 3600 0 0
         [Start; KeyPress key_a 1; Stop]) (letter_at 9)).
Defined.

(** ** The snapshot query *)

Lemma Qltb_compat (a a' b b' : Q) : a == a' -> b == b' -> Qltb a b = Qltb a' b'.
Proof.
  intros Ha Hb.
  destruct (Qltb a b) eqn:E1, (Qltb a' b') eqn:E2; try reflexivity.
  - apply Qltb_lt in E1. apply Qltb_ge in E2. lra.
  - apply Qltb_ge in E1. apply Qltb_lt in E2. lra.
Qed.

Lemma py_round_compat (x y : Q) (n : nat) : x == y -> py_round x n == py_round y n.
Proof.
  intros H. unfold py_round.
  assert (Hy : x * (Zpos (pow10 n) # 1) == y * (Zpos (pow10 n) # 1))
    by (rewrite H; reflexivity).
  rewrite (Qfloor_comp _ _ Hy).
  set (f := Qfloor (y * (Zpos (pow10 n) # 1))).
  rewrite (Qltb_compat (x * (Zpos (pow10 n) # 1) - (f # 1)) (y * (Zpos (pow10 n) # 1) - (f # 1))
             (1 # 2) (1 # 2)) by (try rewrite Hy; reflexivity).
  rewrite (Qltb_compat (1 # 2) (1 # 2)
             (x * (Zpos (pow10 n) # 1) - (f # 1)) (y * (Zpos (pow10 n) # 1) - (f # 1)))
    by (try rewrite Hy; reflexivity).
  reflexivity.
Qed.

(** Refutes C5 as stated: two calls on the same state, at clock readings 10
    and 11, return different [timestamp] fields. *)
Lemma snapshots_differ_with_the_clock :
  ~ snapshot_same (get_current_metrics 10 monitor0) (get_current_metrics 11 monitor0).
Proof.
  intros (Hts & _). simpl in Hts. unfold Qeq in Hts. simpl in Hts. lia.
Qed.

(** C5, amended: two calls of [get_current_metrics] on the same state return
    the same typing metrics, mouse metrics, totals and application usage;
    [timestamp], [session_duration], [time_since_last_activity] and
    [is_inactive] are computed from the clock reading of each call, and the
    two results are identical when the two readings are equal. *)
Theorem snapshot_stable_up_to_clock (s : Monitor) (t1 t2 : Q) :
  (snap_typing_metrics (get_current_metrics t1 s)
     = snap_typing_metrics (get_current_metrics t2 s)
   /\ snap_mouse_metrics (get_current_metrics t1 s)
     = snap_mouse_metrics (get_current_metrics t2 s)
   /\ snap_total_keystrokes (get_current_metrics t1 s)
     = snap_total_keystrokes (get_current_metrics t2 s)
   /\ snap_total_mouse_events (get_current_metrics t1 s)
     = snap_total_mouse_events (get_current_metrics t2 s)
   /\ snap_app_usage (get_current_metrics t1 s)
     = snap_app_usage (get_current_metrics t2 s))
  /\ (t1 == t2 ->
      snapshot_same (get_current_metrics t1 s) (get_current_metrics t2 s)).
Proof.
  split; [repeat split|].
  intros Ht. unfold snapshot_same, get_current_metrics. simpl.
  repeat split.
  - exact Ht.
  - apply py_round_compat. rewrite Ht. reflexivity.
  - apply py_round_compat. rewrite Ht. reflexivity.
  - apply Qltb_compat; [reflexivity|]. rewrite Ht. reflexivity.
Qed.

Lemma snapshot_stable_up_to_clock_witness :
  snapshot_same (get_current_metrics 10 monitor0) (get_current_metrics (20 # 2) monitor0).
Proof.
  apply (proj2 (snapshot_stable_up_to_clock monitor0 10 (20 # 2))).
  reflexivity.
Defined.

(** ** Typing bursts *)

(** Fast intervals at the end of the sequence never change the count: the
    loop only counts a run when a slower interval ends it. *)
Lemma trailing_fast_intervals_ignored (intervals fasts : list Q) :
  forallb fast fasts = true ->
  detect_bursts (intervals ++ fasts) = detect_bursts intervals.
Proof.
  unfold detect_bursts. rewrite fold_left_app.
  generalize (fold_left burst_step intervals (O, O)).
  induction fasts as [|i fasts IH]; intros [bursts n] Hfast; simpl in *.
  - reflexivity.
  - apply andb_true_iff in Hfast as [Hi Hrest].
    unfold fast in Hi. rewrite Hi. rewrite (IH _ Hrest). reflexivity.
Qed.

(** On every sequence of at most 8 fast or slow intervals the loop never
    counts more runs than the specification does, and it counts exactly the
    specification's runs once a slow interval closes the sequence: the two
    differ only on a run that reaches the final interval. *)
Lemma closed_runs_agree_with_specification :
  forallb
    (fun l =>
       (detect_bursts l <=? count_maximal_fast_runs l)%nat
       && (detect_bursts (l ++ [1%Q]) =? count_maximal_fast_runs l)%nat)
    (interval_patterns 8) = true.
Proof. vm_compute. reflexivity. Qed.

(** C4, on the code: four letters 50 ms apart give three consecutive
    intervals below 0.1 s, one maximal run by the specification's count, and
    [typing_bursts] is 0; closed by a slower interval, the same run counts
    once. *)
Theorem trailing_burst_is_not_counted :
  intervals_of (map ks_timestamp (keystroke_data burst_input))
    = [(2001 # 20) - 100; (2002 # 20) - (2001 # 20); (2003 # 20) - (2002 # 20)]
  /\ count_maximal_fast_runs
       (intervals_of (map ks_timestamp (keystroke_data burst_input))) = 1%nat
  /\ typing_bursts (calculate_typing_metrics (1002 # 10) burst_input) = 0%nat
  /\ detect_bursts [1 # 20; 1 # 20; 1 # 20; 1] = 1%nat
  /\ count_maximal_fast_runs [1 # 20; 1 # 20; 1 # 20; 1] = 1%nat.
Proof. repeat split; vm_compute; reflexivity. Qed.

(** ** Press durations *)

(** C2, on the code: a key pressed at 100, buffered by the analysis loop, and
    released at 101 has a tracked pending press, and after the release its
    record still has no [press_duration]; the lookup that guards the update
    reads the entry the handler has just deleted. *)
Theorem release_leaves_duration_unset :
  key_press_times pressed_and_buffered !! key_str key_a = Some 100
  /\ keystroke_data pressed_and_buffered = [mkKeystrokeData 100 letter false None]
  /\ keystroke_data (on_key_release key_a 101 pressed_and_buffered)
     = [mkKeystrokeData 100 letter false None]
  /\ key_press_times (on_key_release key_a 101 pressed_and_buffered) !! key_str key_a
     = None.
Proof. repeat split; vm_compute; reflexivity. Qed.

(** ** What survives the classifier *)

Lemma last_nonzero (l : list KeystrokeData) (k : KeystrokeData) :
  Forall (fun k => ~ ks_timestamp k == 0) l -> last l = Some k ->
  Qeq_bool (ks_timestamp k) 0 = false.
Proof.
  intros Hl Hlast. apply last_Some in Hlast as [l' ->].
  apply Forall_app in Hl as [_ Hk]. inversion Hk as [|? ? Hnz _]; subst.
  destruct (Qeq_bool (ks_timestamp k) 0) eqn:E; [|reflexivity].
  apply Qeq_bool_iff in E. contradiction.
Qed.

(** With no record stamped 0, the guard of the duration update is false for
    every release: the handler only removes the pending entry. *)
Lemma on_key_release_pending (key : RawKey) (t : Q) (s : Monitor) :
  nonzero_timestamps s ->
  erase_pending (on_key_release key t s) = erase_pending s.
Proof.
  intros [_ Hdata]. unfold on_key_release.
  destruct (negb (running s)); [reflexivity|].
  destruct (key_press_times s !! key_str key); [|reflexivity].
  change (keystroke_data (set_key_press_times ?m s)) with (keystroke_data s).
  destruct (last (keystroke_data s)) as [k|] eqn:El; [|reflexivity].
  change (key_press_times (set_key_press_times ?m s)) with m.
  rewrite lookup_delete_eq. simpl default.
  rewrite (last_nonzero _ _ Hdata El). reflexivity.
Qed.

(** Whatever key is released, on a monitor none of whose records is stamped
    0 the release handler changes no record. *)
Lemma release_changes_no_record (key : RawKey) (t : Q) (s : Monitor) :
  nonzero_timestamps s ->
  keystroke_data (on_key_release key t s) = keystroke_data s
  /\ keystroke_queue (on_key_release key t s) = keystroke_queue s.
Proof.
  intros Hs. pose proof (on_key_release_pending key t s Hs) as E. split.
  - change (keystroke_data (on_key_release key t s))
      with (keystroke_data (erase_pending (on_key_release key t s))).
    rewrite E. reflexivity.
  - change (keystroke_queue (on_key_release key t s))
      with (keystroke_queue (erase_pending (on_key_release key t s))).
    rewrite E. reflexivity.
Qed.

(** Refutes C1 as stated: two sessions that agree on every event's kind,
    clock reading and classification end in different monitor states; the
    pending-press table of the first still holds [str(key)] of the key [a],
    that of the second does not. *)
Lemma pending_presses_keep_the_key :
  Forall2 same_classification (session_of key_a) (session_of key_b)
  /\ key_press_times (run sqrt_floor (session_of key_a) monitor0) !! key_str key_a
     = Some 4
  /\ key_press_times (run sqrt_floor (session_of key_b) monitor0) !! key_str key_a
     = None
  /\ run sqrt_floor (session_of key_a) monitor0
     <> run sqrt_floor (session_of key_b) monitor0.
Proof.
  assert (Ha : key_press_times (run sqrt_floor (session_of key_a) monitor0)
                 !! key_str key_a = Some 4) by (vm_compute; reflexivity).
  assert (Hb : key_press_times (run sqrt_floor (session_of key_b) monitor0)
                 !! key_str key_a = None) by (vm_compute; reflexivity).
  repeat split; try assumption.
  - unfold session_of.
    repeat (constructor; try (apply sc_press; reflexivity);
            try (apply sc_release; reflexivity)).
  - intros H. rewrite H in Ha. congruence.
Qed.

(** ** Readers and the analysis loop *)

(** Refutes C6 as stated: a reader scheduled after the iteration has stored
    the typing metrics and before it stores the mouse metrics sees the new
    typing metrics ([health_score] 50) with the old mouse metrics
    ([click_frequency] 0), a view that is neither the one before the
    iteration nor the one after it. *)
Lemma reader_sees_mixed_metrics :
  health_score (snap_typing_metrics (get_current_metrics 4 queued_input)) = 0
  /\ health_score
       (snap_typing_metrics (read_during sqrt_floor (whole_clock 3) 3 4 queued_input))
     = 50
  /\ click_frequency
       (snap_mouse_metrics (read_during sqrt_floor (whole_clock 3) 3 4 queued_input))
     = 0
  /\ click_frequency
       (snap_mouse_metrics
          (get_current_metrics 4
             (analysis_iteration sqrt_floor (whole_clock 3) queued_input)))
     == 1
  /\ ~ single_tick_view sqrt_floor (whole_clock 3) 3 4 queued_input.
Proof.
  repeat split; try (vm_compute; reflexivity).
  intros [H|H]; vm_compute in H; discriminate H.
Qed.

(** * Further properties of the code *)

(** ** The classifier *)

(** X1: [_classify_key] returns [is_modifier = True] exactly when it returns
    the key type [modifier], and a key that carries a non-empty [char] is
    never classified as a modifier, whatever its name. *)
Theorem modifier_flag_matches_key_type (key : RawKey) :
  (snd (classify_key key) = true <-> fst (classify_key key) = modifier)
  /\ (forall c, key_char key = Some c -> truthy c = true ->
      snd (classify_key key) = false
      /\ (fst (classify_key key) = letter \/ fst (classify_key key) = number
          \/ fst (classify_key key) = space \/ fst (classify_key key) = special)).
Proof.
  unfold classify_key. split.
  - destruct (key_char key) as [c|].
    + destruct (truthy c).
      * destruct (isalpha c); [simpl; split; discriminate|].
        destruct (isdigit c); [simpl; split; discriminate|].
        destruct (isspace c); simpl; split; discriminate.
      * destruct (existsb _ _); simpl; split; congruence.
    + destruct (existsb _ _); simpl; split; congruence.
  - intros c Hc Ht. rewrite Hc, Ht.
    destruct (isalpha c); [simpl; auto|].
    destruct (isdigit c); [simpl; auto|].
    destruct (isspace c); simpl; auto.
Qed.

Lemma modifier_flag_matches_key_type_witness :
  classify_key key_shift = (modifier, true)
  /\ snd (classify_key key_a) = false.
Proof.
  split; [reflexivity|].
  exact (proj1 (proj2 (modifier_flag_matches_key_type key_a) "a"%string
                  eq_refl eq_refl)).
Defined.

(** ** Starting and stopping *)

(** X2: on a monitor that is not running, every capture callback, the stop
    request and an iteration of the analysis loop leave the whole state as
    it is; only a start changes it. *)
Theorem stopped_monitor_ignores_events (fsqrt : Q -> Q) (s : Monitor) (e : Event) :
  running s = false -> is_start e = false -> step fsqrt s e = s.
Proof.
  intros Hr He. destruct e; simpl; try discriminate He.
  - unfold stop_monitoring. rewrite Hr. reflexivity.
  - unfold on_key_press. rewrite Hr. reflexivity.
  - unfold on_key_release. rewrite Hr. reflexivity.
  - unfold on_mouse_move. rewrite Hr. reflexivity.
  - unfold on_mouse_click. rewrite Hr. reflexivity.
  - unfold on_mouse_scroll. rewrite Hr. reflexivity.
  - unfold analysis_iteration. rewrite Hr. reflexivity.
Qed.

Lemma stopped_monitor_ignores_events_witness :
  step sqrt_floor monitor0 (KeyPress key_a 5) = monitor0.
Proof.
  exact (stopped_monitor_ignores_events sqrt_floor monitor0 (KeyPress key_a 5)
           eq_refl eq_refl).
Defined.

(** ** Pending presses *)

(** X4: releasing a key that has no pending press changes nothing; pressing
    a key that has none and then releasing it leaves the pending-press table
    as it was before the press; pressing a key again while it is pending
    keeps a single entry, with the time of the later press. *)
Theorem pending_press_round_trip (key : RawKey) (t1 t2 : Q) (s : Monitor) :
  (key_press_times s !! key_str key = None -> on_key_release key t2 s = s)
  /\ (running s = true -> key_press_times s !! key_str key = None ->
      key_press_times (on_key_release key t2 (on_key_press key t1 s))
      = key_press_times s)
  /\ (running s = true ->
      key_press_times (on_key_press key t2 (on_key_press key t1 s))
      = <[key_str key := t2]> (key_press_times s)).
Proof.
  split; [|split].
  - intros Hk. unfold on_key_release. rewrite Hk.
    destruct (negb (running s)); reflexivity.
  - intros Hr Hk. unfold on_key_release, on_key_press. rewrite Hr. simpl.
    destruct (classify_key key) as [kt im]. simpl.
    rewrite Hr. simpl. rewrite lookup_insert_eq.
    rewrite (delete_insert_id _ _ _ Hk).
    destruct (last (keystroke_data s)); [|reflexivity].
    destruct (Qeq_bool _ _); reflexivity.
  - intros Hr. unfold on_key_press. rewrite Hr. simpl.
    destruct (classify_key key) as [kt im]. simpl. rewrite Hr. simpl.
    apply insert_insert_eq.
Qed.

Lemma pending_press_round_trip_witness :
  key_press_times
    (on_key_release key_a 2 (on_key_press key_a 1 (start_monitoring monitor0)))
  = key_press_times (start_monitoring monitor0).
Proof.
  exact (proj1 (proj2 (pending_press_round_trip key_a 1 2 (start_monitoring monitor0)))
           eq_refl eq_refl).
Defined.

(** ** Draining the queues *)

Lemma maxlen_pos : (0 < maxlen)%Z.
Proof. reflexivity. Qed.

Lemma deque_append_length {A} (d : list A) (x : A) :
  (Z.of_nat (length d) <= maxlen)%Z ->
  (Z.of_nat (length (deque_append d x)) <= maxlen)%Z.
Proof.
  intros Hd. pose proof maxlen_pos. unfold deque_append.
  destruct (Z.leb_spec maxlen (Z.of_nat (length d)));
    rewrite length_app; destruct d; cbn [length tl] in *; lia.
Qed.

Lemma deque_append_keep_last {A} (d : list A) (x : A) :
  (Z.of_nat (length d) <= maxlen)%Z -> deque_append d x = keep_last (d ++ [x]).
Proof.
  intros Hd. pose proof maxlen_pos. unfold deque_append, keep_last.
  rewrite length_app. cbn [length].
  destruct (Z.leb_spec maxlen (Z.of_nat (length d))).
  - replace (Z.to_nat (Z.of_nat (length d + 1) - maxlen)) with 1%nat by lia.
    destruct d; cbn [length] in *; [lia|reflexivity].
  - replace (Z.to_nat (Z.of_nat (length d + 1) - maxlen)) with 0%nat by lia.
    reflexivity.
Qed.

Lemma keep_last_app {A} (l items : list A) :
  keep_last (keep_last l ++ items) = keep_last (l ++ items).
Proof.
  pose proof maxlen_pos. unfold keep_last.
  set (a := Z.to_nat (Z.of_nat (length l) - maxlen)).
  assert (Ha : (a <= length l)%nat) by (unfold a; lia).
  rewrite !length_app, length_drop.
  replace (Z.to_nat (Z.of_nat (length l + length items) - maxlen))
    with (a + Z.to_nat (Z.of_nat (length l - a + length items) - maxlen))%nat
    by (unfold a; lia).
  rewrite <- drop_drop. rewrite (drop_app_le l items a Ha). reflexivity.
Qed.

Lemma keep_last_fits {A} (l : list A) :
  (Z.of_nat (length l) <= maxlen)%Z -> keep_last l = l.
Proof.
  intros H. unfold keep_last.
  replace (Z.to_nat (Z.of_nat (length l) - maxlen)) with 0%nat by lia.
  reflexivity.
Qed.

Lemma keep_last_length {A} (l : list A) :
  (Z.of_nat (length (keep_last l)) <= maxlen)%Z.
Proof.
  pose proof maxlen_pos. unfold keep_last. rewrite length_drop. lia.
Qed.

(** Appending one by one to a bounded deque keeps the last [maxlen] items. *)
Lemma fold_deque_append {A} (items d : list A) :
  (Z.of_nat (length d) <= maxlen)%Z ->
  fold_left deque_append items d = keep_last (d ++ items).
Proof.
  revert d. induction items as [|x items IH]; intros d Hd; simpl.
  - rewrite app_nil_r. symmetry. apply keep_last_fits, Hd.
  - rewrite IH by (apply deque_append_length, Hd).
    rewrite deque_append_keep_last by exact Hd.
    rewrite keep_last_app, <- app_assoc. reflexivity.
Qed.

(** What draining a list of keystroke records does to each part of the
    state. *)
Lemma drain_keystrokes_effect (t : Q) (items : list KeystrokeData) (s : Monitor) :
  let s' := fold_left (drain_keystroke t) items s in
  keystroke_data s' = fold_left deque_append items (keystroke_data s)
  /\ mouse_data s' = mouse_data s
  /\ keystroke_queue s' = keystroke_queue s
  /\ mouse_queue s' = mouse_queue s
  /\ total_keystrokes (current_metrics s')
     = (total_keystrokes (current_metrics s) + Z.of_nat (length items))%Z
  /\ total_mouse_events (current_metrics s') = total_mouse_events (current_metrics s)
  /\ last_activity (current_metrics s')
     = match items with [] => last_activity (current_metrics s) | _ => t end.
Proof.
  revert s. induction items as [|x items IH]; intros s.
  - simpl. repeat split; lia.
  - cbn [fold_left]. specialize (IH (drain_keystroke t s x)).
    cbv zeta in IH. destruct IH as (E1 & E2 & E3 & E4 & E5 & E6 & E7).
    cbv zeta. rewrite E1, E2, E3, E4, E5, E6, E7.
    repeat split; cbn [length]; simpl; try lia.
    destruct items; reflexivity.
Qed.

Lemma drain_mice_effect (t : Q) (items : list MouseData) (s : Monitor) :
  let s' := fold_left (drain_mouse t) items s in
  mouse_data s' = fold_left deque_append items (mouse_data s)
  /\ keystroke_data s' = keystroke_data s
  /\ keystroke_queue s' = keystroke_queue s
  /\ mouse_queue s' = mouse_queue s
  /\ total_mouse_events (current_metrics s')
     = (total_mouse_events (current_metrics s) + Z.of_nat (length items))%Z
  /\ total_keystrokes (current_metrics s') = total_keystrokes (current_metrics s)
  /\ last_activity (current_metrics s')
     = match items with [] => last_activity (current_metrics s) | _ => t end.
Proof.
  revert s. induction items as [|x items IH]; intros s.
  - simpl. repeat split; lia.
  - cbn [fold_left]. specialize (IH (drain_mouse t s x)).
    cbv zeta in IH. destruct IH as (E1 & E2 & E3 & E4 & E5 & E6 & E7).
    cbv zeta. rewrite E1, E2, E3, E4, E5, E6, E7.
    repeat split; cbn [length]; simpl; try lia.
    destruct items; reflexivity.
Qed.

(** The whole effect of [_process_queued_data]. *)
Lemma process_queued_data_effect (t : Q) (s : Monitor) :
  let s' := process_queued_data t s in
  keystroke_data s'
    = fold_left deque_append (q_items (keystroke_queue s)) (keystroke_data s)
  /\ mouse_data s' = fold_left deque_append (q_items (mouse_queue s)) (mouse_data s)
  /\ q_items (keystroke_queue s') = []
  /\ q_items (mouse_queue s') = []
  /\ total_keystrokes (current_metrics s')
     = (total_keystrokes (current_metrics s)
        + Z.of_nat (length (q_items (keystroke_queue s))))%Z
  /\ total_mouse_events (current_metrics s')
     = (total_mouse_events (current_metrics s)
        + Z.of_nat (length (q_items (mouse_queue s))))%Z
  /\ last_activity (current_metrics s')
     = match q_items (keystroke_queue s), q_items (mouse_queue s) with
       | [], [] => last_activity (current_metrics s)
       | _, _ => t
       end.
Proof.
  unfold process_queued_data. cbv zeta.
  set (s0 := set_keystroke_queue _ s).
  pose proof (drain_keystrokes_effect t (q_items (keystroke_queue s)) s0) as Hk.
  cbv zeta in Hk.
  set (s1 := fold_left (drain_keystroke t) (q_items (keystroke_queue s)) s0) in *.
  destruct Hk as (K1 & K2 & K3 & K4 & K5 & K6 & K7).
  set (s2 := set_mouse_queue _ s1).
  pose proof (drain_mice_effect t (q_items (mouse_queue s1)) s2) as Hm.
  cbv zeta in Hm.
  destruct Hm as (M1 & M2 & M3 & M4 & M5 & M6 & M7).
  rewrite M1, M2, M3, M4, M5, M6, M7.
  change (mouse_data s2) with (mouse_data s1).
  change (keystroke_data s2) with (keystroke_data s1).
  change (keystroke_queue s2) with (keystroke_queue s1).
  change (current_metrics s2) with (current_metrics s1).
  rewrite K1, K2, K3, K4, K5, K6, K7.
  change (mouse_queue s0) with (mouse_queue s).
  change (mouse_data s0) with (mouse_data s).
  change (keystroke_data s0) with (keystroke_data s).
  change (current_metrics s0) with (current_metrics s).
  repeat split.
  destruct (q_items (keystroke_queue s)), (q_items (mouse_queue s)); reflexivity.
Qed.

(** X5: [_process_queued_data] moves the queued records into the retention
    buffers in arrival order; each buffer then holds the last 10000 records
    of the old buffer followed by the queue, so nothing is dropped while the
    records fit and the oldest ones are dropped first when they do not. *)
Theorem drain_is_first_in_first_out (t : Q) (s : Monitor) :
  within_capacity s ->
  keystroke_data (process_queued_data t s)
    = keep_last (keystroke_data s ++ q_items (keystroke_queue s))
  /\ mouse_data (process_queued_data t s)
     = keep_last (mouse_data s ++ q_items (mouse_queue s))
  /\ ((Z.of_nat (length (keystroke_data s ++ q_items (keystroke_queue s))) <= maxlen)%Z ->
      keystroke_data (process_queued_data t s)
      = keystroke_data s ++ q_items (keystroke_queue s))
  /\ ((Z.of_nat (length (mouse_data s ++ q_items (mouse_queue s))) <= maxlen)%Z ->
      mouse_data (process_queued_data t s)
      = mouse_data s ++ q_items (mouse_queue s)).
Proof.
  intros [Hk Hm].
  destruct (process_queued_data_effect t s) as (E1 & E2 & _).
  rewrite E1, E2, !fold_deque_append by assumption.
  repeat split; intros; apply keep_last_fits; assumption.
Qed.

Lemma drain_is_first_in_first_out_witness :
  keystroke_data (process_queued_data 3 two_presses_queued)
  = [letter_at 1; letter_at 2].
Proof.
  apply (proj1 (proj2 (proj2
    (drain_is_first_in_first_out 3 two_presses_queued
       (conj (Z.lt_le_incl _ _ maxlen_pos) (Z.lt_le_incl _ _ maxlen_pos)))))).
  simpl. unfold maxlen. lia.
Defined.

(** X6: [_process_queued_data] leaves both queues empty, adds the number of
    drained records to [total_keystrokes] and [total_mouse_events], and sets
    [last_activity] to its own clock reading when at least one record was
    queued, leaving it untouched when both queues were empty. *)
Theorem drain_counts_and_marks_activity (t : Q) (s : Monitor) :
  q_items (keystroke_queue (process_queued_data t s)) = []
  /\ q_items (mouse_queue (process_queued_data t s)) = []
  /\ total_keystrokes (current_metrics (process_queued_data t s))
     = (total_keystrokes (current_metrics s)
        + Z.of_nat (length (q_items (keystroke_queue s))))%Z
  /\ total_mouse_events (current_metrics (process_queued_data t s))
     = (total_mouse_events (current_metrics s)
        + Z.of_nat (length (q_items (mouse_queue s))))%Z
  /\ last_activity (current_metrics (process_queued_data t s))
     = match q_items (keystroke_queue s), q_items (mouse_queue s) with
       | [], [] => last_activity (current_metrics s)
       | _, _ => t
       end.
Proof.
  destruct (process_queued_data_effect t s) as (_ & _ & E3 & E4 & E5 & E6 & E7).
  repeat split; assumption.
Qed.

(** ** Invariants of runs *)

Lemma set_last_duration_length (d : Q) (l : list KeystrokeData) :
  length (set_last_duration d l) = length l.
Proof.
  unfold set_last_duration. destruct (last l) as [k|] eqn:E; [|reflexivity].
  apply last_Some in E as [l' ->].
  rewrite removelast_last, !length_app. reflexivity.
Qed.

Lemma popleft_while_length {A} (ts : A -> Q) (cutoff : Q) (d : list A) :
  (length (popleft_while ts cutoff d) <= length d)%nat.
Proof.
  induction d as [|x d IH]; simpl; [lia|].
  destruct (Qltb (ts x) cutoff); simpl; lia.
Qed.

Lemma process_queued_data_capacity (t : Q) (s : Monitor) :
  within_capacity s -> within_capacity (process_queued_data t s).
Proof.
  intros [Hk Hm]. unfold within_capacity.
  destruct (process_queued_data_effect t s) as (E1 & E2 & _).
  rewrite E1, E2, !fold_deque_append by assumption.
  split; apply keep_last_length.
Qed.

Lemma store_mouse_totals (fsqrt : Q -> Q) (t : Q) (s : Monitor) :
  total_keystrokes (current_metrics (store_mouse fsqrt t s))
    = total_keystrokes (current_metrics s)
  /\ total_mouse_events (current_metrics (store_mouse fsqrt t s))
     = total_mouse_events (current_metrics s)
  /\ last_activity (current_metrics (store_mouse fsqrt t s))
     = last_activity (current_metrics s).
Proof.
  unfold store_mouse. destruct (calculate_mouse_metrics _ _ _); repeat split.
Qed.

Section RunInvariants.

Variable fsqrt : Q -> Q.

Lemma step_capacity (s : Monitor) (e : Event) :
  within_capacity s -> within_capacity (step fsqrt s e).
Proof.
  intros H. destruct e; simpl.
  - unfold start_monitoring. destruct (running s); auto.
  - unfold stop_monitoring. destruct (negb (running s)); auto.
  - unfold on_key_press. destruct (negb (running s)); auto.
    destruct (classify_key key). auto.
  - unfold on_key_release. destruct (negb (running s)); auto.
    destruct (key_press_times s !! key_str key); auto. simpl.
    destruct (last (keystroke_data s)); auto.
    destruct (Qeq_bool _ _); auto.
    destruct H as [Hk Hm]. split; [|exact Hm]. simpl.
    rewrite set_last_duration_length. exact Hk.
  - unfold on_mouse_move. destruct (negb (running s)); auto.
  - unfold on_mouse_click. destruct (negb (running s)); auto.
    destruct pressed; auto.
  - unfold on_mouse_scroll. destruct (negb (running s)); auto.
  - rewrite analysis_iteration_unfold. destruct (running s); auto.
    destruct (process_queued_data_capacity (t_process c) s H) as [Hk Hm].
    unfold within_capacity.
    destruct (store_mouse_queues fsqrt (t_mouse c)
                (store_typing (t_typing c)
                   (clean_old_data (t_clean c)
                      (process_queued_data (t_process c) s))))
      as (_ & _ & Ek & Em & _).
    rewrite Ek, Em. simpl. split.
    + pose proof (popleft_while_length ks_timestamp
                    (t_clean c - data_retention (process_queued_data (t_process c) s))
                    (keystroke_data (process_queued_data (t_process c) s))).
      lia.
    + pose proof (popleft_while_length md_timestamp
                    (t_clean c - data_retention (process_queued_data (t_process c) s))
                    (mouse_data (process_queued_data (t_process c) s))).
      lia.
Qed.

(** X7: in every state the monitor can reach from [__init__], each retention
    buffer holds at most 10000 records. *)
Theorem buffers_within_capacity (aw it dr t0 t1 : Q) (events : list Event) :
  (Z.of_nat (length (keystroke_data (run fsqrt events (init aw it dr t0 t1)))) <= 10000)%Z
  /\ (Z.of_nat (length (mouse_data (run fsqrt events (init aw it dr t0 t1)))) <= 10000)%Z.
Proof.
  change 10000%Z with maxlen.
  change (within_capacity (run fsqrt events (init aw it dr t0 t1))).
  unfold run. apply (fold_left_preserves _ within_capacity).
  - intros a b. apply step_capacity.
  - split; simpl; unfold maxlen; lia.
Qed.

Ltac close_balance Hr :=
  rewrite ?Hr; repeat split; solve [lia | assumption | reflexivity].

Lemma step_balance (s : Monitor) (e : Event) :
  unbounded_queues s ->
  (total_keystrokes (current_metrics (step fsqrt s e))
   + Z.of_nat (length (q_items (keystroke_queue (step fsqrt s e))))
   = total_keystrokes (current_metrics s)
     + Z.of_nat (length (q_items (keystroke_queue s)))
     + (if running s && is_key_press e then 1 else 0))%Z
  /\ (total_mouse_events (current_metrics (step fsqrt s e))
      + Z.of_nat (length (q_items (mouse_queue (step fsqrt s e))))
      = total_mouse_events (current_metrics s)
        + Z.of_nat (length (q_items (mouse_queue s)))
        + (if running s && is_pointer_record e then 1 else 0))%Z
  /\ running (step fsqrt s e) = running_after (running s) e.
Proof.
  intros [Hk Hm]. destruct e; simpl.
  - unfold start_monitoring. destruct (running s) eqn:Hr; simpl; close_balance Hr.
  - unfold stop_monitoring. destruct (running s) eqn:Hr; simpl; close_balance Hr.
  - unfold on_key_press. destruct (running s) eqn:Hr; simpl; [|close_balance Hr].
    destruct (classify_key key). simpl.
    rewrite try_put_unbounded by exact Hk. rewrite length_app. simpl.
    close_balance Hr.
  - rewrite andb_false_r.
    unfold on_key_release. destruct (running s) eqn:Hr; simpl; [|close_balance Hr].
    destruct (key_press_times s !! key_str key); simpl; [|close_balance Hr].
    destruct (last (keystroke_data s)); simpl; [|close_balance Hr].
    destruct (Qeq_bool _ _); simpl; close_balance Hr.
  - unfold on_mouse_move. destruct (running s) eqn:Hr; simpl; [|close_balance Hr].
    rewrite try_put_unbounded by exact Hm. rewrite length_app. simpl.
    close_balance Hr.
  - unfold on_mouse_click. destruct (running s) eqn:Hr; simpl; [|close_balance Hr].
    destruct pressed; simpl; [|close_balance Hr].
    rewrite try_put_unbounded by exact Hm. rewrite length_app. simpl.
    close_balance Hr.
  - unfold on_mouse_scroll. destruct (running s) eqn:Hr; simpl; [|close_balance Hr].
    rewrite try_put_unbounded by exact Hm. rewrite length_app. simpl.
    close_balance Hr.
  - rewrite !andb_false_r. rewrite analysis_iteration_unfold.
    destruct (running s) eqn:Hr; [|close_balance Hr].
    set (s1 := process_queued_data (t_process c) s).
    destruct (store_mouse_queues fsqrt (t_mouse c)
                (store_typing (t_typing c) (clean_old_data (t_clean c) s1)))
      as (Ek & Em & _ & _ & Er).
    destruct (store_mouse_totals fsqrt (t_mouse c)
                (store_typing (t_typing c) (clean_old_data (t_clean c) s1)))
      as (Tk & Tm & _).
    rewrite Ek, Em, Er, Tk, Tm. simpl.
    destruct (process_queued_data_effect (t_process c) s)
      as (_ & _ & Q1 & Q2 & C1 & C2 & _).
    fold s1 in Q1, Q2, C1, C2. rewrite Q1, Q2, C1, C2. simpl.
    destruct (process_queued_data_frame (t_process c) s)
      as (_ & _ & _ & _ & _ & Fr & _).
    fold s1 in Fr. rewrite Fr. close_balance Hr.
Qed.

Lemma run_balance (events : list Event) :
  forall s, unbounded_queues s ->
  (total_keystrokes (current_metrics (run fsqrt events s))
   + Z.of_nat (length (q_items (keystroke_queue (run fsqrt events s))))
   = total_keystrokes (current_metrics s)
     + Z.of_nat (length (q_items (keystroke_queue s)))
     + Z.of_nat (count_accepted is_key_press (running s) events))%Z
  /\ (total_mouse_events (current_metrics (run fsqrt events s))
      + Z.of_nat (length (q_items (mouse_queue (run fsqrt events s))))
      = total_mouse_events (current_metrics s)
        + Z.of_nat (length (q_items (mouse_queue s)))
        + Z.of_nat (count_accepted is_pointer_record (running s) events))%Z.
Proof.
  induction events as [|e events IH]; intros s Hu.
  - simpl. lia.
  - rewrite !run_cons. cbn [count_accepted].
    destruct (step_balance s e Hu) as (Bk & Bm & Br).
    destruct (IH (step fsqrt s e) (step_unbounded fsqrt s e Hu)) as [Ik Im].
    rewrite Ik, Im, Bk, Bm, Br.
    destruct (running s && is_key_press e), (running s && is_pointer_record e);
      split; lia.
Qed.

(** X8: after any sequence of events from [__init__], [total_keystrokes] plus
    the number of queued keystroke records equals the number of key presses
    that arrived while the monitor was running, and [total_mouse_events]
    plus the number of queued pointer records equals the number of moves,
    scrolls and button presses that arrived while it was running: no
    accepted event is lost or counted twice. *)
Theorem every_accepted_event_is_counted (aw it dr t0 t1 : Q) (events : list Event) :
  (total_keystrokes (current_metrics (run fsqrt events (init aw it dr t0 t1)))
   + Z.of_nat (length (q_items (keystroke_queue
                                  (run fsqrt events (init aw it dr t0 t1)))))
   = Z.of_nat (count_accepted is_key_press false events))%Z
  /\ (total_mouse_events (current_metrics (run fsqrt events (init aw it dr t0 t1)))
      + Z.of_nat (length (q_items (mouse_queue
                                     (run fsqrt events (init aw it dr t0 t1)))))
      = Z.of_nat (count_accepted is_pointer_record false events))%Z.
Proof.
  destruct (run_balance events (init aw it dr t0 t1) (init_unbounded aw it dr t0 t1))
    as [Hk Hm].
  rewrite Hk, Hm. simpl. split; lia.
Qed.

End RunInvariants.

(** ** Eviction, continued *)

Lemma popleft_while_idempotent {A} (ts : A -> Q) (cutoff : Q) (d : list A) :
  popleft_while ts cutoff (popleft_while ts cutoff d) = popleft_while ts cutoff d.
Proof.
  induction d as [|x d IH]; simpl; [reflexivity|].
  destruct (Qltb (ts x) cutoff) eqn:E; [exact IH|].
  simpl. rewrite E. reflexivity.
Qed.

Lemma popleft_while_split {A} (ts : A -> Q) (cutoff : Q) (d : list A) :
  exists dropped,
    d = dropped ++ popleft_while ts cutoff d
    /\ Forall (fun x => ts x < cutoff) dropped.
Proof.
  induction d as [|x d (dropped & Hd & Hold)]; simpl.
  - exists []. split; [reflexivity|constructor].
  - destruct (Qltb (ts x) cutoff) eqn:E.
    + exists (x :: dropped). split; [simpl; congruence|].
      constructor; [apply Qltb_lt, E|exact Hold].
    + exists []. split; [reflexivity|constructor].
Qed.

(** X9: [_clean_old_data] removes only a leading run of records older than
    the cutoff from each buffer, changes nothing else in the monitor, and
    running it again at the same time changes nothing more. *)
Theorem eviction_trims_a_prefix (now : Q) (s : Monitor) :
  (exists dropped,
      keystroke_data s = dropped ++ keystroke_data (clean_old_data now s)
      /\ Forall (fun k => ks_timestamp k < now - data_retention s) dropped)
  /\ (exists dropped,
        mouse_data s = dropped ++ mouse_data (clean_old_data now s)
        /\ Forall (fun m => md_timestamp m < now - data_retention s) dropped)
  /\ set_mouse_data (mouse_data s)
       (set_keystroke_data (keystroke_data s) (clean_old_data now s)) = s
  /\ clean_old_data now (clean_old_data now s) = clean_old_data now s.
Proof.
  unfold clean_old_data. simpl. repeat split.
  - apply popleft_while_split.
  - apply popleft_while_split.
  - destruct s. reflexivity.
  - unfold set_mouse_data, set_keystroke_data. simpl.
    rewrite !popleft_while_idempotent. reflexivity.
Qed.

Lemma filter_keeps_all {A} (p : A -> bool) (l : list A) :
  Forall (fun x => p x = true) l -> List.filter p l = l.
Proof.
  induction 1 as [|x l Hx Hl IH]; simpl; [reflexivity|].
  rewrite Hx, IH. reflexivity.
Qed.

Lemma popleft_while_filter {A} (ts : A -> Q) (cutoff : Q) (d : list A) :
  nondecreasing (map ts d) ->
  popleft_while ts cutoff d = List.filter (in_retention ts cutoff) d.
Proof.
  induction d as [|x d IH]; intros Hsorted; simpl; [reflexivity|].
  change (nondecreasing (ts x :: map ts d)) in Hsorted.
  unfold in_retention at 1.
  destruct (Qltb (ts x) cutoff) eqn:E; simpl.
  - apply IH. exact (nondecreasing_tail _ _ Hsorted).
  - f_equal. symmetry. apply filter_keeps_all.
    pose proof (nondecreasing_lower_bound _ _ Hsorted) as Hlb.
    rewrite Forall_map in Hlb. apply Qltb_ge in E.
    eapply Forall_impl; [exact Hlb|].
    simpl. intros y Hy. unfold in_retention.
    apply negb_true_iff, Qltb_ge. lra.
Qed.

(** X10: on buffers whose timestamps never decrease, [_clean_old_data] keeps
    exactly the records that are not older than [now - data_retention], in
    their order: no record still within retention is dropped. *)
Theorem eviction_keeps_records_in_retention (now : Q) (s : Monitor) :
  nondecreasing (map ks_timestamp (keystroke_data s)) ->
  nondecreasing (map md_timestamp (mouse_data s)) ->
  keystroke_data (clean_old_data now s)
    = List.filter (in_retention ks_timestamp (now - data_retention s))
        (keystroke_data s)
  /\ mouse_data (clean_old_data now s)
     = List.filter (in_retention md_timestamp (now - data_retention s))
         (mouse_data s).
Proof.
  intros Hk Hm. unfold clean_old_data. simpl.
  split; apply popleft_while_filter; assumption.
Qed.

Lemma eviction_keeps_records_in_retention_witness :
  keystroke_data (clean_old_data 4000 aged_buffers)
  = List.filter (in_retention ks_timestamp (4000 - data_retention aged_buffers))
      (keystroke_data aged_buffers).
Proof.
  apply (eviction_keeps_records_in_retention 4000 aged_buffers).
  - simpl. repeat split; unfold Qle; simpl; lia.
  - simpl. repeat split; unfold Qle; simpl; lia.
Defined.

(** ** A clock that never goes back *)

Lemma nondecreasing_strongly (l : list Q) :
  nondecreasing l <-> StronglySorted Qle l.
Proof.
  induction l as [|a l IH].
  - split; [constructor|simpl; trivial].
  - split.
    + intros H. constructor.
      * apply IH. exact (nondecreasing_tail _ _ H).
      * exact (nondecreasing_lower_bound _ _ H).
    + intros H. apply StronglySorted_inv in H as [Hl Ha].
      destruct l as [|b l]; [simpl; trivial|].
      split; [inversion Ha; assumption|apply IH, Hl].
Qed.

Lemma sublist_Forall_keeps {A} (P : A -> Prop) (l1 l2 : list A) :
  sublist l1 l2 -> Forall P l2 -> Forall P l1.
Proof.
  induction 1 as [|x l1 l2 Hs IH|x l1 l2 Hs IH]; intros H.
  - constructor.
  - inversion H; subst. constructor; auto.
  - inversion H; subst. auto.
Qed.

Lemma nondecreasing_sublist (l1 l2 : list Q) :
  sublist l1 l2 -> nondecreasing l2 -> nondecreasing l1.
Proof.
  rewrite !nondecreasing_strongly.
  induction 1 as [|x l1 l2 Hs IH|x l1 l2 Hs IH]; intros H.
  - constructor.
  - apply StronglySorted_inv in H as [Hl Hx]. constructor; [auto|].
    exact (sublist_Forall_keeps _ _ _ Hs Hx).
  - apply StronglySorted_inv in H as [Hl _]. auto.
Qed.

Lemma sublist_map {A B} (f : A -> B) (l1 l2 : list A) :
  sublist l1 l2 -> sublist (map f l1) (map f l2).
Proof.
  induction 1; simpl; constructor; assumption.
Qed.

Lemma deque_append_sublist {A} (d : list A) (x : A) :
  sublist (deque_append d x) (d ++ [x]).
Proof.
  unfold deque_append. destruct (maxlen <=? Z.of_nat (length d))%Z; [|reflexivity].
  destruct d as [|y d]; simpl; [reflexivity|].
  apply sublist_cons. reflexivity.
Qed.

Lemma fold_deque_append_sublist {A} (items d : list A) :
  sublist (fold_left deque_append items d) (d ++ items).
Proof.
  revert d. induction items as [|x items IH]; intros d; simpl.
  - rewrite app_nil_r. reflexivity.
  - etransitivity; [apply IH|].
    change (x :: items) with ([x] ++ items). rewrite app_assoc.
    apply sublist_app; [apply deque_append_sublist|reflexivity].
Qed.

Lemma popleft_while_sublist {A} (ts : A -> Q) (cutoff : Q) (d : list A) :
  sublist (popleft_while ts cutoff d) d.
Proof.
  induction d as [|x d IH]; simpl; [constructor|].
  destruct (Qltb (ts x) cutoff); [apply sublist_cons, IH|reflexivity].
Qed.

Lemma set_last_duration_timestamps (d : Q) (l : list KeystrokeData) :
  map ks_timestamp (set_last_duration d l) = map ks_timestamp l.
Proof.
  unfold set_last_duration. destruct (last l) as [k|] eqn:E; [|reflexivity].
  apply last_Some in E as [l' ->].
  rewrite removelast_last, !map_app. reflexivity.
Qed.

Lemma try_put_sublist {A} (q : PyQueue A) (x : A) :
  sublist (q_items (try_put q x)) (q_items q ++ [x]).
Proof.
  unfold try_put, put_nowait. destruct (_ && _); simpl; [|reflexivity].
  apply sublist_inserts_r. reflexivity.
Qed.

Lemma sublist_app_nil_r {A} (l1 l2 k : list A) :
  sublist l1 l2 -> sublist l1 (l2 ++ k).
Proof. apply sublist_inserts_r. Qed.

Section MonotoneClock.

Variable fsqrt : Q -> Q.

Lemma tick_times (c : Clock) (s : Monitor) :
  running s = true ->
  sublist (keystroke_times (analysis_iteration fsqrt c s)) (keystroke_times s)
  /\ sublist (mouse_times (analysis_iteration fsqrt c s)) (mouse_times s).
Proof.
  intros Hr. rewrite analysis_iteration_unfold, Hr.
  set (s1 := process_queued_data (t_process c) s).
  destruct (store_mouse_queues fsqrt (t_mouse c)
              (store_typing (t_typing c) (clean_old_data (t_clean c) s1)))
    as (Ek & Em & Ekd & Emd & _).
  unfold keystroke_times, mouse_times. rewrite Ek, Em, Ekd, Emd. simpl.
  destruct (process_queued_data_effect (t_process c) s)
    as (D1 & D2 & Q1 & Q2 & _).
  fold s1 in D1, D2, Q1, Q2. rewrite Q1, Q2, !app_nil_r.
  split; apply sublist_map.
  - etransitivity; [apply popleft_while_sublist|].
    rewrite D1. apply fold_deque_append_sublist.
  - etransitivity; [apply popleft_while_sublist|].
    rewrite D2. apply fold_deque_append_sublist.
Qed.

(** After a step the timestamps held are among those held before, followed
    by the reading of the callback. *)
Lemma step_times (s : Monitor) (e : Event) :
  sublist (keystroke_times (step fsqrt s e)) (keystroke_times s ++ capture_time e)
  /\ sublist (mouse_times (step fsqrt s e)) (mouse_times s ++ capture_time e).
Proof.
  destruct e; simpl.
  - unfold start_monitoring. destruct (running s); rewrite !app_nil_r; split; reflexivity.
  - unfold stop_monitoring. destruct (negb (running s));
      rewrite !app_nil_r; split; reflexivity.
  - unfold on_key_press. destruct (negb (running s)).
    + split; apply sublist_inserts_r; reflexivity.
    + destruct (classify_key key) as [kt im].
      unfold keystroke_times, mouse_times. simpl. split.
      * change [t] with (map ks_timestamp [mkKeystrokeData t kt im None]).
        rewrite <- map_app, <- app_assoc. apply sublist_map.
        apply sublist_app; [reflexivity|apply try_put_sublist].
      * apply sublist_inserts_r. reflexivity.
  - rewrite !app_nil_r. unfold on_key_release. destruct (negb (running s)).
    + split; reflexivity.
    + destruct (key_press_times s !! key_str key); [|split; reflexivity].
      simpl. destruct (last (keystroke_data s)); [|split; reflexivity].
      destruct (Qeq_bool _ _); [|split; reflexivity].
      unfold keystroke_times, mouse_times. simpl.
      rewrite !map_app, set_last_duration_timestamps. split; reflexivity.
  - unfold on_mouse_move. destruct (negb (running s)).
    + split; apply sublist_inserts_r; reflexivity.
    + unfold keystroke_times, mouse_times. simpl. split.
      * apply sublist_inserts_r. reflexivity.
      * change [t] with (map md_timestamp [mkMouseData t x y move None None]).
        rewrite <- map_app, <- app_assoc. apply sublist_map.
        apply sublist_app; [reflexivity|apply try_put_sublist].
  - unfold on_mouse_click. destruct (negb (running s)).
    + split; apply sublist_inserts_r; reflexivity.
    + destruct pressed; [|split; apply sublist_inserts_r; reflexivity].
      unfold keystroke_times, mouse_times. simpl. split.
      * apply sublist_inserts_r. reflexivity.
      * change [t] with (map md_timestamp [mkMouseData t x y click (Some btn) None]).
        rewrite <- map_app, <- app_assoc. apply sublist_map.
        apply sublist_app; [reflexivity|apply try_put_sublist].
  - unfold on_mouse_scroll. destruct (negb (running s)).
    + split; apply sublist_inserts_r; reflexivity.
    + unfold keystroke_times, mouse_times. simpl. split.
      * apply sublist_inserts_r. reflexivity.
      * match goal with
        | |- context [try_put _ ?r] => change [t] with (map md_timestamp [r])
        end.
        rewrite <- map_app, <- app_assoc. apply sublist_map.
        apply sublist_app; [reflexivity|apply try_put_sublist].
  - rewrite !app_nil_r. destruct (running s) eqn:Hr.
    + apply tick_times, Hr.
    + unfold analysis_iteration. rewrite Hr. split; reflexivity.
Qed.

Lemma run_times (events : list Event) :
  forall s,
    nondecreasing (keystroke_times s ++ capture_times events) ->
    nondecreasing (mouse_times s ++ capture_times events) ->
    nondecreasing (keystroke_times (run fsqrt events s))
    /\ nondecreasing (mouse_times (run fsqrt events s)).
Proof.
  induction events as [|e events IH]; intros s Hk Hm.
  - simpl in *. rewrite app_nil_r in Hk, Hm. split; assumption.
  - rewrite run_cons. unfold capture_times in Hk, Hm. simpl in Hk, Hm.
    fold (capture_times events) in Hk, Hm. rewrite app_assoc in Hk, Hm.
    destruct (step_times s e) as [Sk Sm].
    apply IH.
    + eapply nondecreasing_sublist; [|exact Hk].
      apply sublist_app; [exact Sk|reflexivity].
    + eapply nondecreasing_sublist; [|exact Hm].
      apply sublist_app; [exact Sm|reflexivity].
Qed.

(** X11: when the clock readings of the capture callbacks never decrease
    along a run from [__init__], the timestamps of each retention buffer
    (and of the records still queued behind it) never decrease either, and
    so an analysis iteration leaves no record older than its cutoff in
    either buffer. *)
Theorem monotone_clock_keeps_buffers_ordered (aw it dr t0 t1 : Q)
    (events : list Event) :
  nondecreasing (capture_times events) ->
  let s := run fsqrt events (init aw it dr t0 t1) in
  nondecreasing (keystroke_times s)
  /\ nondecreasing (mouse_times s)
  /\ nondecreasing (map ks_timestamp (keystroke_data s))
  /\ nondecreasing (map md_timestamp (mouse_data s))
  /\ (forall c, running s = true ->
        none_older_than (t_clean c - data_retention s)
          (analysis_iteration fsqrt c s)).
Proof.
  intros Hmono s.
  destruct (run_times events (init aw it dr t0 t1) Hmono Hmono) as [Hk Hm].
  fold s in Hk, Hm.
  assert (Hkd : nondecreasing (map ks_timestamp (keystroke_data s))).
  { eapply nondecreasing_sublist; [|exact Hk].
    unfold keystroke_times. rewrite map_app. apply sublist_inserts_r. reflexivity. }
  assert (Hmd : nondecreasing (map md_timestamp (mouse_data s))).
  { eapply nondecreasing_sublist; [|exact Hm].
    unfold mouse_times. rewrite map_app. apply sublist_inserts_r. reflexivity. }
  repeat split; try assumption.
  - rewrite analysis_iteration_unfold, H.
    set (s1 := process_queued_data (t_process c) s).
    destruct (store_mouse_queues fsqrt (t_mouse c)
                (store_typing (t_typing c) (clean_old_data (t_clean c) s1)))
      as (_ & _ & Ekd & _).
    rewrite Ekd. simpl.
    destruct (process_queued_data_frame (t_process c) s) as (_ & _ & Fr & _).
    fold s1 in Fr. rewrite Fr.
    apply popleft_while_none_older.
    destruct (process_queued_data_effect (t_process c) s) as (D1 & _).
    fold s1 in D1. rewrite D1.
    eapply nondecreasing_sublist; [|exact Hk].
    apply sublist_map, fold_deque_append_sublist.
  - rewrite analysis_iteration_unfold, H.
    set (s1 := process_queued_data (t_process c) s).
    destruct (store_mouse_queues fsqrt (t_mouse c)
                (store_typing (t_typing c) (clean_old_data (t_clean c) s1)))
      as (_ & _ & _ & Emd & _).
    rewrite Emd. simpl.
    destruct (process_queued_data_frame (t_process c) s) as (_ & _ & Fr & _).
    fold s1 in Fr. rewrite Fr.
    apply popleft_while_none_older.
    destruct (process_queued_data_effect (t_process c) s) as (_ & D2 & _).
    fold s1 in D2. rewrite D2.
    eapply nondecreasing_sublist; [|exact Hm].
    apply sublist_map, fold_deque_append_sublist.
Qed.

End MonotoneClock.

Lemma monotone_clock_keeps_buffers_ordered_witness :
  nondecreasing
    (map ks_timestamp (keystroke_data (run sqrt_floor monotone_session monitor0))).
Proof.
  assert (H : nondecreasing (capture_times monotone_session)).
  { unfold monotone_session, capture_times.
    cbn [flat_map capture_time app nondecreasing].
    repeat split; unfold Qle; simpl; lia. }
  exact (proj1 (proj2 (proj2
    (monotone_clock_keeps_buffers_ordered sqrt_floor 60 30 3600 0 0
       monotone_session H)))).
Defined.

(** ** Ranges of the typing scores *)

Lemma py_min_upper (a b : Q) : py_min a b <= a.
Proof.
  unfold py_min. destruct (Qltb b a) eqn:E; [|lra].
  apply Qltb_lt in E. lra.
Qed.

Lemma py_min_lower (a b c : Q) : c <= a -> c <= b -> c <= py_min a b.
Proof. unfold py_min. destruct (Qltb b a); auto. Qed.

Lemma py_round_percent (x : Q) (n : nat) : percent x -> percent (py_round x n).
Proof.
  intros [H0 H100]. split.
  - apply py_round_nonneg, H0.
  - apply (py_round_le_int x n 100). unfold inject_Z. exact H100.
Qed.

Lemma clamp_percent (x : Q) : percent (py_min 100 (py_max 0 x)).
Proof.
  split.
  - apply py_min_lower; [lra|apply py_max_lower].
  - apply py_min_upper.
Qed.

Lemma Qdiv_nonneg (a b : Q) : 0 <= a -> 0 < b -> 0 <= a / b.
Proof.
  intros Ha Hb. apply Qle_shift_div_l; [exact Hb|]. lra.
Qed.

Lemma Qlen_nonneg {A} (l : list A) : 0 <= Qlen l.
Proof. unfold Qlen, Qle. simpl. lia. Qed.

Lemma Qlen_pos {A} (x : A) (l : list A) : 0 < Qlen (x :: l).
Proof. unfold Qlen, Qlt. simpl. lia. Qed.

Lemma count_if_le_length {A} (p : A -> bool) (l : list A) :
  (count_if p l <= length l)%nat.
Proof. unfold count_if. apply List.filter_length_le. Qed.

(** A count out of a non-empty total, as a percentage. *)
Lemma share_percent {A} (k : nat) (x : A) (l : list A) :
  (k <= length (x :: l))%nat ->
  percent ((Z.of_nat k # 1) / Qlen (x :: l) * 100).
Proof.
  intros Hk. pose proof (Qlen_pos x l) as Hpos.
  assert (H0 : 0 <= (Z.of_nat k # 1) / Qlen (x :: l)).
  { apply Qdiv_nonneg; [|exact Hpos]. unfold Qle. simpl. lia. }
  assert (H1 : (Z.of_nat k # 1) / Qlen (x :: l) <= 1).
  { apply Qle_shift_div_r; [exact Hpos|].
    unfold Qlen, Qle. simpl. cbn [length] in Hk. lia. }
  split; lra.
Qed.

Lemma calculate_typing_scores_in_range (now : Q) (s : Monitor) :
  typing_scores_in_range (calculate_typing_metrics now s).
Proof.
  unfold typing_scores_in_range, calculate_typing_metrics, percent.
  destruct (length _ <? 2)%nat; [simpl; repeat split; lra|].
  destruct (List.filter _ _) as [|first rest]; [simpl; repeat split; lra|].
  cbv zeta.
  cbn [wpm raw_wpm accuracy_score fatigue_score health_score pause_frequency].
  set (recent := first :: rest).
  set (ivs := intervals_of (map ks_timestamp recent)).
  set (span := now - ks_timestamp first).
  set (w := if Qltb 0 span then Qlen recent / span * 60 / 5 else 0).
  set (v := if (1 <? length ivs)%nat then variance ivs else 0).
  set (pf := match ivs with
             | [] => 0
             | _ :: _ => (Z.of_nat (count_if (fun i => Qltb 2 i) ivs) # 1)
                         / Qlen ivs * 100
             end).
  assert (Hw : 0 <= w).
  { unfold w. destruct (Qltb 0 span) eqn:E; [|lra].
    apply Qltb_lt in E.
    assert (0 <= Qlen recent / span)
      by (apply Qdiv_nonneg; [apply Qlen_nonneg|exact E]).
    assert (0 <= Qlen recent / span * 60) by (apply Qmult_le_0_compat; lra).
    apply Qdiv_nonneg; lra. }
  assert (Hv : 0 <= v).
  { unfold v. destruct (1 <? length ivs)%nat eqn:E; [|lra].
    apply variance_nonneg, Nat.ltb_lt, E. }
  assert (Hpf : 0 <= pf <= 100).
  { unfold pf. destruct ivs as [|i ivs']; [lra|].
    apply share_percent, count_if_le_length. }
  assert (Hwf : 0 <= py_max 0 ((baseline_wpm - w) / baseline_wpm) * 100 <= 100).
  { assert (Hx : (baseline_wpm - w) / baseline_wpm <= 1).
    { apply Qle_shift_div_r; [reflexivity|]. unfold baseline_wpm. lra. }
    pose proof (py_max_lower 0 ((baseline_wpm - w) / baseline_wpm)).
    pose proof (py_max_upper 0 ((baseline_wpm - w) / baseline_wpm) 1
                  ltac:(lra) Hx).
    split; lra. }
  assert (Hvf : 0 <= py_min 100 (v / max_variance * 100) <= 100).
  { split; [|apply py_min_upper].
    apply py_min_lower; [lra|].
    assert (0 <= v / max_variance) by (apply Qdiv_nonneg; [exact Hv|reflexivity]).
    apply Qmult_le_0_compat; lra. }
  repeat split.
  - apply py_round_nonneg, Hw.
  - apply py_round_percent, clamp_percent.
  - apply py_round_percent, clamp_percent.
  - apply py_round_percent. unfold percent. split.
    + apply Qdiv_nonneg; lra.
    + apply Qle_shift_div_r; lra.
  - apply py_round_percent. unfold percent. split.
    + apply Qdiv_nonneg; lra.
    + apply Qle_shift_div_r; lra.
  - apply py_round_percent, clamp_percent.
  - apply py_round_percent, clamp_percent.
  - apply py_round_percent. exact Hpf.
  - apply py_round_percent. exact Hpf.
Qed.

(** X12: the metrics computed by [_calculate_typing_metrics] from any buffer
    satisfy [wpm >= 0], [raw_wpm = wpm], and [accuracy_score],
    [fatigue_score], [health_score] and [pause_frequency] all lie between 0
    and 100. *)
Theorem typing_scores_are_percentages (now : Q) (s : Monitor) :
  0 <= wpm (calculate_typing_metrics now s)
  /\ raw_wpm (calculate_typing_metrics now s) = wpm (calculate_typing_metrics now s)
  /\ 0 <= accuracy_score (calculate_typing_metrics now s) <= 100
  /\ 0 <= fatigue_score (calculate_typing_metrics now s) <= 100
  /\ 0 <= health_score (calculate_typing_metrics now s) <= 100
  /\ 0 <= pause_frequency (calculate_typing_metrics now s) <= 100.
Proof. apply calculate_typing_scores_in_range. Qed.

(** ** What the typing metrics read *)

Lemma typing_metrics_depend_on_recent (now : Q) (s1 s2 : Monitor) :
  analysis_window s1 = analysis_window s2 ->
  List.filter (qualifies (now - analysis_window s1)) (keystroke_data s1)
  = List.filter (qualifies (now - analysis_window s2)) (keystroke_data s2) ->
  calculate_typing_metrics now s1 = calculate_typing_metrics now s2.
Proof.
  intros Hw Hf. unfold calculate_typing_metrics. rewrite Hf. reflexivity.
Qed.

(** X13: a record that is a modifier keystroke, or that is stamped before
    the start of the analysis window, has no influence on the typing
    metrics, wherever it sits in the buffer. *)
Theorem typing_metrics_ignore_unqualified (now : Q) (s : Monitor)
    (before after : list KeystrokeData) (k : KeystrokeData) :
  is_modifier k = true \/ ks_timestamp k < now - analysis_window s ->
  calculate_typing_metrics now (set_keystroke_data (before ++ k :: after) s)
  = calculate_typing_metrics now (set_keystroke_data (before ++ after) s).
Proof.
  intros Hk. apply typing_metrics_depend_on_recent; [reflexivity|].
  simpl. rewrite !List.filter_app. simpl.
  assert (Hq : qualifies (now - analysis_window s) k = false).
  { unfold qualifies. destruct Hk as [Hm|Ht].
    - rewrite Hm. apply andb_false_r.
    - destruct (Qle_bool (now - analysis_window s) (ks_timestamp k)) eqn:E;
        [|reflexivity].
      apply Qle_bool_iff in E. lra. }
  rewrite Hq. reflexivity.
Qed.

Lemma typing_metrics_ignore_unqualified_witness :
  calculate_typing_metrics 101
    (set_keystroke_data
       ([letter_at 100] ++ mkKeystrokeData (201 # 2) modifier true None
                           :: [letter_at (1003 # 10)])
       monitor0)
  = calculate_typing_metrics 101
      (set_keystroke_data ([letter_at 100] ++ [letter_at (1003 # 10)]) monitor0).
Proof.
  apply (typing_metrics_ignore_unqualified 101 monitor0).
  left. reflexivity.
Defined.

(** ** A bound on the burst count *)

Lemma burst_step_bound (st : nat * nat) (interval : Q) (n : nat) :
  (4 * fst st + snd st <= n)%nat ->
  (4 * fst (burst_step st interval) + snd (burst_step st interval) <= S n)%nat.
Proof.
  destruct st as [bursts fasts]. unfold burst_step. cbn [fst snd].
  destruct (Qltb interval burst_threshold); cbn [fst snd]; [lia|].
  destruct (3 <=? fasts)%nat eqn:E; cbn [fst snd]; [|lia].
  apply Nat.leb_le in E. lia.
Qed.

Lemma fold_burst_bound (intervals : list Q) :
  forall st n,
    (4 * fst st + snd st <= n)%nat ->
    (4 * fst (fold_left burst_step intervals st)
     + snd (fold_left burst_step intervals st) <= n + length intervals)%nat.
Proof.
  induction intervals as [|i intervals IH]; intros st n H.
  - simpl. lia.
  - cbn [fold_left length].
    specialize (IH (burst_step st i) (S n) (burst_step_bound st i n H)). lia.
Qed.

Lemma intervals_of_length (ts : list Q) :
  length (intervals_of ts) = (length ts - 1)%nat.
Proof.
  induction ts as [|a ts IH]; [reflexivity|].
  destruct ts as [|b ts]; [reflexivity|].
  change (intervals_of (a :: b :: ts)) with ((b - a) :: intervals_of (b :: ts)).
  cbn [length] in *. lia.
Qed.

(** X14: every counted burst takes at least three fast intervals and the
    slower interval that ends it, so four times the burst count is at most
    the number of intervals: four times [typing_bursts] is at most the
    number of keystrokes that qualify for the window, minus one. *)
Theorem bursts_need_four_intervals (now : Q) (s : Monitor) :
  (forall intervals, (4 * detect_bursts intervals <= length intervals)%nat)
  /\ (4 * typing_bursts (calculate_typing_metrics now s)
      <= count_if (qualifies (now - analysis_window s)) (keystroke_data s) - 1)%nat.
Proof.
  assert (Hd : forall intervals, (4 * detect_bursts intervals <= length intervals)%nat).
  { intros intervals. unfold detect_bursts.
    pose proof (fold_burst_bound intervals (O, O) O ltac:(simpl; lia)). lia. }
  split; [exact Hd|].
  unfold calculate_typing_metrics, count_if.
  destruct (length _ <? 2)%nat; [simpl; lia|].
  destruct (List.filter _ _) as [|first rest]; [simpl; lia|].
  cbv zeta. cbn [typing_bursts].
  specialize (Hd (intervals_of (map ks_timestamp (first :: rest)))).
  rewrite intervals_of_length, length_map in Hd. exact Hd.
Qed.

(** ** Pointer metrics *)

Section PointerMetrics.

Variable fsqrt : Q -> Q.

Lemma calculate_mouse_scores_in_range (now : Q) (s : Monitor) (m : MouseMetrics) :
  calculate_mouse_metrics fsqrt now s = Some m -> mouse_scores_in_range m.
Proof.
  unfold calculate_mouse_metrics, mouse_scores_in_range.
  destruct (List.filter _ (mouse_data s)) as [|first others].
  { intros [= <-]. unfold percent. simpl. repeat split; lra. }
  cbv zeta.
  set (movement := List.filter (fun md => Action_eqb (action md) move)
                     (first :: others)).
  destruct (Qeq_bool (analysis_window s) 0); [discriminate|].
  intros [= <-]. cbn [movement_smoothness active_time_percentage]. split.
  - apply py_round_percent.
    destruct movement as [|mv mvs]; [unfold percent; lra|].
    split; [apply py_max_lower|].
    apply py_max_upper; [lra|].
    assert (0 <= (Z.of_nat (count_direction_changes fsqrt (mv :: mvs)) # 1)
                 / Qlen (mv :: mvs)).
    { apply Qdiv_nonneg; [|apply Qlen_pos]. unfold Qle. simpl. lia. }
    assert (0 <= (Z.of_nat (count_direction_changes fsqrt (mv :: mvs)) # 1)
                 / Qlen (mv :: mvs) * 100)
      by (apply Qmult_le_0_compat; lra).
    lra.
  - apply py_round_percent. split; [apply py_max_lower|].
    apply py_max_upper; [lra|apply py_min_upper].
Qed.

(** X15: whenever [_calculate_mouse_metrics] returns, [movement_smoothness]
    and [active_time_percentage] lie between 0 and 100, whatever the
    positions and timestamps of the records. *)
Theorem pointer_scores_are_percentages (now : Q) (s : Monitor) (m : MouseMetrics) :
  calculate_mouse_metrics fsqrt now s = Some m ->
  0 <= movement_smoothness m <= 100 /\ 0 <= active_time_percentage m <= 100.
Proof. apply calculate_mouse_scores_in_range. Qed.

(** X16: [_calculate_mouse_metrics] raises (a division by zero) exactly when
    [analysis_window] is 0 and at least one pointer record lies in the
    window; with an empty window it returns the all-zero metrics even then. *)
Theorem pointer_metrics_raise_on_zero_window (now : Q) (s : Monitor) :
  (calculate_mouse_metrics fsqrt now s = None
   <-> analysis_window s == 0
       /\ List.filter (in_window (now - analysis_window s)) (mouse_data s) <> [])
  /\ (List.filter (in_window (now - analysis_window s)) (mouse_data s) = [] ->
      calculate_mouse_metrics fsqrt now s = Some (mkMouseMetrics 0 0 0 0 0 0 0)).
Proof.
  unfold calculate_mouse_metrics.
  change (fun md => Qle_bool (now - analysis_window s) (md_timestamp md))
    with (in_window (now - analysis_window s)).
  destruct (List.filter (in_window (now - analysis_window s)) (mouse_data s))
    as [|first others].
  - split; [|reflexivity]. split; [discriminate|]. intros [_ H]. contradiction.
  - cbv zeta. split; [|discriminate].
    destruct (Qeq_bool (analysis_window s) 0) eqn:E.
    + split; [|reflexivity]. intros _. split; [|discriminate].
      apply Qeq_bool_iff, E.
    + split; [discriminate|]. intros [H _].
      apply Qeq_bool_iff in H. congruence.
Qed.

End PointerMetrics.

Lemma pointer_scores_are_percentages_witness :
  0 <= movement_smoothness
         (mkMouseMetrics (py_round 0 2) (py_round 0 2) (py_round 1 2) (py_round 0 2)
            (py_round 100 2) 0 (py_round 100 2))
     <= 100.
Proof.
  refine (proj1 (pointer_scores_are_percentages sqrt_floor 3
                   (process_queued_data 3 queued_input) _ _)).
  vm_compute. reflexivity.
Defined.

Lemma pointer_metrics_raise_on_zero_window_witness :
  calculate_mouse_metrics sqrt_floor 10 zero_window = None.
Proof.
  apply (proj1 (pointer_metrics_raise_on_zero_window sqrt_floor 10 zero_window)).
  split; [reflexivity|discriminate].
Defined.

(** ** Activity tracking *)

Lemma store_mouse_config (fsqrt : Q -> Q) (t : Q) (s : Monitor) :
  inactivity_threshold (store_mouse fsqrt t s) = inactivity_threshold s
  /\ analysis_window (store_mouse fsqrt t s) = analysis_window s
  /\ data_retention (store_mouse fsqrt t s) = data_retention s
  /\ session_start (current_metrics (store_mouse fsqrt t s))
     = session_start (current_metrics s).
Proof.
  unfold store_mouse. destruct (calculate_mouse_metrics _ _ _); repeat split.
Qed.

Lemma analysis_iteration_activity (fsqrt : Q -> Q) (c : Clock) (s : Monitor) :
  running s = true ->
  inactivity_threshold (analysis_iteration fsqrt c s) = inactivity_threshold s
  /\ last_activity (current_metrics (analysis_iteration fsqrt c s))
     = match q_items (keystroke_queue s), q_items (mouse_queue s) with
       | [], [] => last_activity (current_metrics s)
       | _, _ => t_process c
       end.
Proof.
  intros Hr. rewrite analysis_iteration_unfold, Hr.
  set (s1 := process_queued_data (t_process c) s).
  destruct (store_mouse_config fsqrt (t_mouse c)
              (store_typing (t_typing c) (clean_old_data (t_clean c) s1)))
    as (Ei & _).
  destruct (store_mouse_totals fsqrt (t_mouse c)
              (store_typing (t_typing c) (clean_old_data (t_clean c) s1)))
    as (_ & _ & El).
  rewrite Ei, El. simpl.
  destruct (process_queued_data_frame (t_process c) s) as (_ & Fi & _).
  destruct (process_queued_data_effect (t_process c) s)
    as (_ & _ & _ & _ & _ & _ & L).
  fold s1 in Fi, L. rewrite Fi, L. split; reflexivity.
Qed.

(** X17: an analysis iteration that finds at least one queued record
    restarts the inactivity timer at its own clock reading (not at the
    event's timestamp): a snapshot read at time [t] afterwards is inactive
    exactly when [t] minus that reading exceeds [inactivity_threshold]; an
    iteration that finds both queues empty leaves the timer as it was. *)
Theorem iteration_restarts_inactivity_timer (fsqrt : Q -> Q) (c : Clock) (t : Q)
    (s : Monitor) :
  running s = true ->
  (q_items (keystroke_queue s) <> [] \/ q_items (mouse_queue s) <> [] ->
   snap_is_inactive (get_current_metrics t (analysis_iteration fsqrt c s))
   = Qltb (inactivity_threshold s) (t - t_process c)
   /\ snap_time_since_last_activity
        (get_current_metrics t (analysis_iteration fsqrt c s))
      = py_round (t - t_process c) 2)
  /\ (q_items (keystroke_queue s) = [] -> q_items (mouse_queue s) = [] ->
      snap_is_inactive (get_current_metrics t (analysis_iteration fsqrt c s))
      = snap_is_inactive (get_current_metrics t s)
      /\ snap_time_since_last_activity
           (get_current_metrics t (analysis_iteration fsqrt c s))
         = snap_time_since_last_activity (get_current_metrics t s)).
Proof.
  intros Hr. destruct (analysis_iteration_activity fsqrt c s Hr) as [Ei El].
  unfold get_current_metrics. cbn [snap_is_inactive snap_time_since_last_activity].
  rewrite Ei, El. split.
  - intros Hq.
    destruct (q_items (keystroke_queue s)), (q_items (mouse_queue s));
      try (split; reflexivity).
    destruct Hq as [Hq|Hq]; contradiction.
  - intros -> ->. split; reflexivity.
Qed.

Lemma iteration_restarts_inactivity_timer_witness :
  snap_is_inactive
    (get_current_metrics 40 (analysis_iteration sqrt_floor (whole_clock 3) queued_input))
  = Qltb (inactivity_threshold queued_input) (40 - t_process (whole_clock 3)).
Proof.
  refine (proj1 (proj1 (iteration_restarts_inactivity_timer sqrt_floor (whole_clock 3)
                          40 queued_input eq_refl) _)).
  left. discriminate.
Defined.

(** ** Fatigue indicators *)

Section Fatigue.

Variable fsqrt : Q -> Q.

Lemma step_scores_in_range (s : Monitor) (e : Event) :
  typing_scores_in_range (typing (current_metrics s))
  /\ mouse_scores_in_range (mouse (current_metrics s)) ->
  typing_scores_in_range (typing (current_metrics (step fsqrt s e)))
  /\ mouse_scores_in_range (mouse (current_metrics (step fsqrt s e))).
Proof.
  intros H. destruct e; simpl.
  - unfold start_monitoring. destruct (running s); auto.
  - unfold stop_monitoring. destruct (negb (running s)); auto.
  - unfold on_key_press. destruct (negb (running s)); auto.
    destruct (classify_key key). auto.
  - unfold on_key_release. destruct (negb (running s)); auto.
    destruct (key_press_times s !! key_str key); auto. simpl.
    destruct (last (keystroke_data s)); auto.
    destruct (Qeq_bool _ _); auto.
  - unfold on_mouse_move. destruct (negb (running s)); auto.
  - unfold on_mouse_click. destruct (negb (running s)); auto.
    destruct pressed; auto.
  - unfold on_mouse_scroll. destruct (negb (running s)); auto.
  - rewrite analysis_iteration_unfold. destruct (running s); auto.
    set (s2 := clean_old_data (t_clean c) (process_queued_data (t_process c) s)).
    split.
    + rewrite store_mouse_typing. simpl. apply calculate_typing_scores_in_range.
    + unfold store_mouse.
      destruct (calculate_mouse_metrics fsqrt (t_mouse c)
                  (store_typing (t_typing c) s2)) as [m|] eqn:E.
      * simpl. exact (calculate_mouse_scores_in_range fsqrt _ _ _ E).
      * simpl. unfold s2. simpl.
        destruct (process_queued_data_frame (t_process c) s)
          as (_ & _ & _ & _ & _ & _ & _ & Fm & _).
        rewrite Fm. apply H.
Qed.

Lemma run_scores_in_range (aw it dr t0 t1 : Q) (events : list Event) :
  typing_scores_in_range
    (typing (current_metrics (run fsqrt events (init aw it dr t0 t1))))
  /\ mouse_scores_in_range
       (mouse (current_metrics (run fsqrt events (init aw it dr t0 t1)))).
Proof.
  unfold run.
  apply (fold_left_preserves _
           (fun s => typing_scores_in_range (typing (current_metrics s))
                     /\ mouse_scores_in_range (mouse (current_metrics s)))).
  - intros a b. apply step_scores_in_range.
  - unfold typing_scores_in_range, mouse_scores_in_range, percent. simpl.
    repeat split; lra.
Qed.

(** X18: in every state the monitor can reach from [__init__],
    [overall_fatigue_level] of [get_fatigue_indicators] lies between 0 and
    100; it is above 35 whenever [high_fatigue_score] or [low_activity] is
    set, and when it is above 85 both flags are set. *)
Theorem overall_fatigue_is_a_percentage (aw it dr t0 t1 : Q) (events : list Event) :
  let f := get_fatigue_indicators (run fsqrt events (init aw it dr t0 t1)) in
  0 <= overall_fatigue_level f <= 100
  /\ (high_fatigue_score (typing_fatigue f) = true -> 35 < overall_fatigue_level f)
  /\ (low_activity (mouse_fatigue f) = true -> 35 < overall_fatigue_level f)
  /\ (85 < overall_fatigue_level f ->
      high_fatigue_score (typing_fatigue f) = true
      /\ low_activity (mouse_fatigue f) = true).
Proof.
  destruct (run_scores_in_range aw it dr t0 t1 events)
    as [(_ & _ & _ & HF & _) (_ & HA)].
  unfold get_fatigue_indicators. cbv zeta.
  cbn [overall_fatigue_level typing_fatigue mouse_fatigue high_fatigue_score
       low_activity].
  set (F := fatigue_score _) in *. set (A := active_time_percentage _) in *.
  unfold percent in HF, HA.
  assert (Hhalf : forall x, (F + (100 - A)) / 2 == x -> F + (100 - A) == 2 * x).
  { intros x Hx. rewrite <- Hx. field. }
  pose proof (Hhalf _ (Qeq_refl _)) as Ho.
  set (o := (F + (100 - A)) / 2) in *. clearbody o.
  repeat split; try lra.
  - intros H. apply Qltb_lt in H. lra.
  - intros H. apply Qltb_lt in H. lra.
  - apply Qltb_lt. lra.
  - apply Qltb_lt. lra.
Qed.

End Fatigue.

Lemma overall_fatigue_is_a_percentage_witness :
  35 < overall_fatigue_level (get_fatigue_indicators (run sqrt_floor [] monitor0)).
Proof.
  exact (proj1 (proj2 (proj2
    (overall_fatigue_is_a_percentage sqrt_floor 60 30 3600 0 0 []))) eq_refl).
Defined.

(** ** The exported document *)

Section ExportedDocument.

Variable fsqrt : Q -> Q.

Lemma step_configuration (s : Monitor) (e : Event) :
  analysis_window (step fsqrt s e) = analysis_window s
  /\ inactivity_threshold (step fsqrt s e) = inactivity_threshold s
  /\ data_retention (step fsqrt s e) = data_retention s
  /\ session_start (current_metrics (step fsqrt s e))
     = session_start (current_metrics s).
Proof.
  destruct e; simpl.
  - unfold start_monitoring. destruct (running s); repeat split.
  - unfold stop_monitoring. destruct (negb (running s)); repeat split.
  - unfold on_key_press. destruct (negb (running s)); [repeat split|].
    destruct (classify_key key). repeat split.
  - unfold on_key_release. destruct (negb (running s)); [repeat split|].
    destruct (key_press_times s !! key_str key); [|repeat split]. simpl.
    destruct (last (keystroke_data s)); [|repeat split].
    destruct (Qeq_bool _ _); repeat split.
  - unfold on_mouse_move. destruct (negb (running s)); repeat split.
  - unfold on_mouse_click. destruct (negb (running s)); [repeat split|].
    destruct pressed; repeat split.
  - unfold on_mouse_scroll. destruct (negb (running s)); repeat split.
  - rewrite analysis_iteration_unfold. destruct (running s); [|repeat split].
    set (s1 := process_queued_data (t_process c) s).
    destruct (store_mouse_config fsqrt (t_mouse c)
                (store_typing (t_typing c) (clean_old_data (t_clean c) s1)))
      as (E1 & E2 & E3 & E4).
    rewrite E1, E2, E3, E4. simpl.
    destruct (process_queued_data_frame (t_process c) s)
      as (F1 & F2 & F3 & _ & _ & _ & _ & _ & F4 & _).
    fold s1 in F1, F2, F3, F4. rewrite F1, F2, F3, F4. repeat split.
Qed.

(** X19: no event changes the configuration or [session_start]: after any
    run, [export_data] reports the [analysis_window], [inactivity_threshold]
    and [data_retention] the monitor was built with and the start time read
    by [__init__], and the snapshot's [session_duration] is measured from
    that start time. *)
Theorem export_reports_the_initial_configuration (aw it dr t0 t1 : Q)
    (events : list Event) (t_export t_metrics : Q) :
  let doc := export_data t_export t_metrics (run fsqrt events (init aw it dr t0 t1)) in
  configuration doc = mkConfiguration aw it dr
  /\ start_time (session_info doc) = t1
  /\ export_time (session_info doc) = t_export
  /\ snap_session_duration (exported_metrics doc) = py_round (t_metrics - t1) 2.
Proof.
  assert (H : let s := run fsqrt events (init aw it dr t0 t1) in
              analysis_window s = aw /\ inactivity_threshold s = it
              /\ data_retention s = dr
              /\ session_start (current_metrics s) = t1).
  { unfold run.
    apply (fold_left_preserves _
             (fun s => analysis_window s = aw /\ inactivity_threshold s = it
                       /\ data_retention s = dr
                       /\ session_start (current_metrics s) = t1)).
    - intros a b (H1 & H2 & H3 & H4).
      destruct (step_configuration a b) as (E1 & E2 & E3 & E4).
      rewrite E1, E2, E3, E4. repeat split; assumption.
    - repeat split. }
  cbv zeta in H. destruct H as (H1 & H2 & H3 & H4).
  unfold export_data, get_current_metrics. simpl.
  rewrite H1, H2, H3, H4. repeat split.
Qed.

End ExportedDocument.

(** ** Steady typing *)

Lemma detect_bursts_all_slow (intervals : list Q) :
  Forall (fun i => burst_threshold <= i) intervals -> detect_bursts intervals = O.
Proof.
  unfold detect_bursts. induction 1 as [|i l Hi Hl IH]; [reflexivity|].
  simpl. apply Qltb_ge in Hi. rewrite Hi. simpl. exact IH.
Qed.

Lemma count_if_none {A} (p : A -> bool) (l : list A) :
  Forall (fun x => p x = false) l -> count_if p l = O.
Proof.
  unfold count_if. induction 1 as [|x l Hx Hl IH]; [reflexivity|].
  simpl. rewrite Hx. exact IH.
Qed.

(** X20: when every interval between consecutive qualifying keystrokes is at
    least 0.1 s and at most 2 s, [typing_bursts] is 0 and [pause_frequency]
    is 0. *)
Theorem steady_typing_has_no_bursts_or_pauses (now : Q) (s : Monitor) :
  Forall (fun i => 1 # 10 <= i <= 2)
    (intervals_of
       (map ks_timestamp
          (List.filter (qualifies (now - analysis_window s)) (keystroke_data s)))) ->
  typing_bursts (calculate_typing_metrics now s) = O
  /\ pause_frequency (calculate_typing_metrics now s) == 0.
Proof.
  intros Hsteady. unfold calculate_typing_metrics.
  destruct (length _ <? 2)%nat; [split; reflexivity|].
  destruct (List.filter _ _) as [|first rest]; [split; reflexivity|].
  cbv zeta. cbn [typing_bursts pause_frequency].
  set (ivs := intervals_of (map ks_timestamp (first :: rest))) in *.
  split.
  - apply detect_bursts_all_slow.
    eapply Forall_impl; [exact Hsteady|]. simpl. intros i [Hi _]. exact Hi.
  - assert (Hp : count_if (fun i => Qltb 2 i) ivs = O).
    { apply count_if_none. eapply Forall_impl; [exact Hsteady|].
      simpl. intros i [_ Hi]. apply Qltb_ge, Hi. }
    rewrite Hp. destruct ivs as [|i ivs'].
    + reflexivity.
    + rewrite (py_round_compat _ 0 2); [reflexivity|].
      unfold Qdiv. rewrite !Qmult_0_l. reflexivity.
Qed.

Lemma steady_typing_has_no_bursts_or_pauses_witness :
  typing_bursts (calculate_typing_metrics 101 steady_typing) = O
  /\ pause_frequency (calculate_typing_metrics 101 steady_typing) == 0.
Proof.
  apply (steady_typing_has_no_bursts_or_pauses 101 steady_typing).
  simpl. repeat constructor; unfold Qle; simpl; lia.
Defined.

(** ** The installation test *)

(** X21: [check_python_version] accepts exactly the versions from 3.7 on:
    major above 3, or major 3 with minor at least 7. *)
Theorem check_python_version_accepts_from_3_7 (major minor : Z) :
  check_python_version major minor = true
  <-> (3 < major \/ (major = 3 /\ 7 <= minor))%Z.
Proof.
  unfold check_python_version.
  destruct (Z.ltb_spec major 3), (Z.eqb_spec major 3), (Z.ltb_spec minor 7);
    simpl; split; intros Hyp; try discriminate; try reflexivity; lia.
Qed.

(** ** Application monitoring *)

Lemma monitor_applications_idle (readings : list Q) (a : AppTracker) :
  current_app a = None ->
  tracked_usage (monitor_applications readings a) = tracked_usage a
  /\ current_app (monitor_applications readings a) = None.
Proof.
  unfold monitor_applications. revert a.
  induction readings as [|t readings IH]; intros a Ha; [split; auto|].
  simpl. destruct (IH (monitor_applications_iteration a t)) as [E1 E2].
  - simpl. exact Ha.
  - rewrite E1, E2. unfold monitor_applications_iteration. rewrite Ha.
    split; reflexivity.
Qed.

Lemma last_cons_default {A} (x : A) (l : list A) (d1 d2 : A) :
  List.last (x :: l) d1 = List.last (x :: l) d2.
Proof.
  revert x. induction l as [|y l IH]; intros x; [reflexivity|].
  change (List.last (y :: l) d1 = List.last (y :: l) d2). apply IH.
Qed.

Lemma monitor_applications_tracks (app : string) (readings : list Q) :
  forall a,
    current_app a = Some app -> truthy app = true ->
    let a' := monitor_applications readings a in
    default 0 (tracked_usage a' !! app) + app_start_time a
    == default 0 (tracked_usage a !! app) + app_start_time a'
    /\ (forall other, other <> app ->
          tracked_usage a' !! other = tracked_usage a !! other)
    /\ app_start_time a' = List.last readings (app_start_time a).
Proof.
  unfold monitor_applications.
  induction readings as [|t readings IH]; intros a Ha Ht.
  - simpl. split; [reflexivity|split; reflexivity].
  - cbn [fold_left].
    assert (Ha' : current_app (monitor_applications_iteration a t) = Some app)
      by exact Ha.
    destruct (IH (monitor_applications_iteration a t) Ha' Ht) as (E1 & E2 & E3).
    cbv zeta. split; [|split].
    + assert (H1 : default 0 (tracked_usage (monitor_applications_iteration a t) !! app)
                   == default 0 (tracked_usage a !! app) + (t - app_start_time a)).
      { unfold monitor_applications_iteration. rewrite Ha, Ht. simpl.
        rewrite lookup_insert_eq. reflexivity. }
      change (app_start_time (monitor_applications_iteration a t)) with t in E1.
      lra.
    + intros other Ho. rewrite (E2 other Ho).
      unfold monitor_applications_iteration. rewrite Ha, Ht. simpl.
      apply lookup_insert_ne. congruence.
    + rewrite E3. destruct readings as [|q readings]; [reflexivity|].
      change (List.last (t :: q :: readings) (app_start_time a))
        with (List.last (q :: readings) (app_start_time a)).
      apply last_cons_default.
Qed.

(** X22: while [current_app] is [None], as [__init__] leaves it,
    [_monitor_applications] never changes [app_usage]; while it names an
    application, the usage recorded for that application grows by exactly
    the time from [app_start_time] to the last clock reading, however many
    iterations ran in between, and no other entry changes. *)
Theorem application_usage_accumulates (readings : list Q) (a : AppTracker) :
  (current_app a = None ->
   tracked_usage (monitor_applications readings a) = tracked_usage a)
  /\ (forall app, current_app a = Some app -> truthy app = true ->
      default 0 (tracked_usage (monitor_applications readings a) !! app)
      == default 0 (tracked_usage a !! app)
         + (List.last readings (app_start_time a) - app_start_time a)
      /\ (forall other, other <> app ->
            tracked_usage (monitor_applications readings a) !! other
            = tracked_usage a !! other)).
Proof.
  split.
  - intros Ha. apply (monitor_applications_idle readings a Ha).
  - intros app Ha Ht.
    destruct (monitor_applications_tracks app readings a Ha Ht) as (E1 & E2 & E3).
    split; [|exact E2].
    rewrite <- E3. lra.
Qed.

Lemma application_usage_accumulates_witness :
  default 0 (tracked_usage (monitor_applications [11; 12; 15] editor_tracker)
               !! "editor"%string)
  == default 0 (tracked_usage editor_tracker !! "editor"%string)
     + (List.last [11; 12; 15] (app_start_time editor_tracker)
        - app_start_time editor_tracker).
Proof.
  exact (proj1 (proj2 (application_usage_accumulates [11; 12; 15] editor_tracker)
                  "editor"%string eq_refl eq_refl)).
Defined.

(** ** Scroll events *)

(** X23: on a running monitor in any reachable state a scroll event appends
    one record with action [scroll] whose direction is [up] when [dy > 0],
    [down] when [dy < 0] and [horizontal] when [dy = 0]; the horizontal
    delta [dx] is never looked at. *)
Theorem scroll_direction_follows_dy (fsqrt : Q -> Q) (aw it dr t0 t1 : Q)
    (events : list Event) (x y dx dy : Z) (t : Q) :
  let s := run fsqrt events (init aw it dr t0 t1) in
  running s = true ->
  (forall direction,
      ((0 < dy)%Z /\ direction = up) \/ ((dy < 0)%Z /\ direction = down)
      \/ (dy = 0%Z /\ direction = horizontal) ->
      q_items (mouse_queue (on_mouse_scroll x y dx dy t s))
      = q_items (mouse_queue s) ++ [mkMouseData t x y scroll None (Some direction)])
  /\ (forall dx', on_mouse_scroll x y dx' dy t s = on_mouse_scroll x y dx dy t s).
Proof.
  intros s Hr.
  assert (Hu : unbounded_queues s) by (apply run_unbounded, init_unbounded).
  split; [|reflexivity].
  intros direction Hd. unfold on_mouse_scroll. rewrite Hr. simpl.
  rewrite try_put_unbounded by apply Hu.
  destruct Hd as [[H ->]|[[H ->]|[H ->]]].
  - apply Z.ltb_lt in H. rewrite H. reflexivity.
  - destruct (Z.ltb_spec 0 dy); [lia|].
    apply Z.ltb_lt in H. rewrite H. reflexivity.
  - subst dy. reflexivity.
Qed.

Lemma scroll_direction_follows_dy_witness :
  q_items (mouse_queue (on_mouse_scroll 1 2 5 0 3 (run sqrt_floor [Start] monitor0)))
  = [mkMouseData 3 1 2 scroll None (Some horizontal)].
Proof.
  refine (proj1 (scroll_direction_follows_dy sqrt_floor 60 30 3600 0 0 [Start]
                   1 2 5 0 3 eq_refl) horizontal _).
  right. right. split; reflexivity.
Defined.

(** * Readers and the analysis loop, in general *)

(** C6, amended: nothing guards [current_metrics], so what a reader sees
    depends on where it falls in an iteration of the analysis loop on a
    running monitor.  After the iteration it sees typing metrics and mouse
    metrics computed by that iteration from the same buffers (the mouse
    metrics keep their previous value when their computation raises) with
    the counters the drain left.  Between the two stores it sees the new
    typing metrics with the previous mouse metrics; after the drain and
    before the first store it sees the new counters with the previous
    metrics.  Whenever the iteration changes both metrics, the view between
    the two stores is neither the view before the iteration nor the view
    after it. *)
Theorem reader_between_iterations (fsqrt : Q -> Q) (c : Clock) (t : Q) (s : Monitor) :
  running s = true ->
  let buffers := clean_old_data (t_clean c) (process_queued_data (t_process c) s) in
  let after := analysis_iteration fsqrt c s in
  let new_typing := calculate_typing_metrics (t_typing c) buffers in
  let new_mouse :=
    match calculate_mouse_metrics fsqrt (t_mouse c) buffers with
    | Some m => m
    | None => mouse (current_metrics s)
    end in
  let new_keystrokes :=
    (total_keystrokes (current_metrics s)
     + Z.of_nat (length (q_items (keystroke_queue s))))%Z in
  let new_mouse_events :=
    (total_mouse_events (current_metrics s)
     + Z.of_nat (length (q_items (mouse_queue s))))%Z in
  metrics_view (get_current_metrics t after)
    = (new_typing, new_mouse, new_keystrokes, new_mouse_events)
  /\ keystroke_data after = keystroke_data buffers
  /\ mouse_data after = mouse_data buffers
  /\ metrics_view (read_during fsqrt c 3 t s)
     = (new_typing, mouse (current_metrics s), new_keystrokes, new_mouse_events)
  /\ metrics_view (read_during fsqrt c 2 t s)
     = (typing (current_metrics s), mouse (current_metrics s),
        new_keystrokes, new_mouse_events)
  /\ metrics_view (read_during fsqrt c 1 t s)
     = (typing (current_metrics s), mouse (current_metrics s),
        new_keystrokes, new_mouse_events)
  /\ (new_typing <> typing (current_metrics s) ->
      new_mouse <> mouse (current_metrics s) ->
      ~ single_tick_view fsqrt c 3 t s).
Proof.
  intros Hr buffers after new_typing new_mouse new_keystrokes new_mouse_events.
  set (drained := process_queued_data (t_process c) s).
  assert (Hafter : after = store_mouse fsqrt (t_mouse c)
                             (store_typing (t_typing c) buffers)).
  { unfold after. rewrite analysis_iteration_unfold, Hr. reflexivity. }
  assert (Hcalc : calculate_mouse_metrics fsqrt (t_mouse c)
                    (store_typing (t_typing c) buffers)
                  = calculate_mouse_metrics fsqrt (t_mouse c) buffers)
    by reflexivity.
  destruct (process_queued_data_frame (t_process c) s)
    as (_ & _ & _ & _ & _ & _ & Fty & Fmo & _).
  destruct (process_queued_data_effect (t_process c) s)
    as (_ & _ & _ & _ & Ek & Em & _).
  fold drained in Fty, Fmo, Ek, Em.
  assert (V1 : metrics_view (get_current_metrics t drained)
               = (typing (current_metrics s), mouse (current_metrics s),
                  new_keystrokes, new_mouse_events)).
  { unfold metrics_view, get_current_metrics. simpl.
    rewrite Fty, Fmo, Ek, Em. reflexivity. }
  assert (V3 : metrics_view (read_during fsqrt c 3 t s)
               = (new_typing, mouse (current_metrics s),
                  new_keystrokes, new_mouse_events)).
  { unfold read_during, metrics_view, get_current_metrics. simpl.
    fold drained. rewrite Fmo, Ek, Em. reflexivity. }
  assert (V4 : metrics_view (get_current_metrics t after)
               = (new_typing, new_mouse, new_keystrokes, new_mouse_events)).
  { rewrite Hafter. unfold metrics_view, get_current_metrics, store_mouse.
    rewrite Hcalc. unfold new_mouse.
    destruct (calculate_mouse_metrics fsqrt (t_mouse c) buffers); simpl;
      fold drained; rewrite ?Fmo, Ek, Em; reflexivity. }
  split; [exact V4|].
  split; [rewrite Hafter;
          apply (store_mouse_queues fsqrt (t_mouse c)
                   (store_typing (t_typing c) buffers))|].
  split; [rewrite Hafter;
          apply (store_mouse_queues fsqrt (t_mouse c)
                   (store_typing (t_typing c) buffers))|].
  split; [exact V3|].
  split; [exact V1|].
  split; [exact V1|].
  intros Hty Hmo [H|H]; rewrite V3 in H.
  - unfold metrics_view, get_current_metrics in H. simpl in H.
    apply Hty. congruence.
  - fold after in H. rewrite V4 in H. apply Hmo. congruence.
Qed.

Lemma reader_between_iterations_witness :
  metrics_view (read_during sqrt_floor (whole_clock 3) 3 4 queued_input)
  = (degenerate_typing, mkMouseMetrics 0 0 0 0 0 0 0, 1%Z, 1%Z).
Proof.
  exact (proj1 (proj2 (proj2 (proj2
    (reader_between_iterations sqrt_floor (whole_clock 3) 4 queued_input eq_refl))))).
Defined.

(** * What survives the classifier, for any classifier *)

Lemma run_with_classify_key (fsqrt : Q -> Q) (events : list Event) (s : Monitor) :
  run_with classify_key fsqrt events s = run fsqrt events s.
Proof.
  unfold run_with, run. revert s.
  induction events as [|e events IH]; intros s; [reflexivity|].
  simpl. rewrite IH. destruct e; reflexivity.
Qed.

Lemma map_tl {A B} (f : A -> B) (l : list A) : map f (tl l) = tl (map f l).
Proof. destruct l; reflexivity. Qed.

Lemma deque_append_map {A B} (f : A -> B) (d : list A) (x : A) :
  map f (deque_append d x) = deque_append (map f d) (f x).
Proof.
  unfold deque_append. rewrite length_map.
  destruct (maxlen <=? Z.of_nat (length d))%Z; rewrite map_app, ?map_tl; reflexivity.
Qed.

Lemma popleft_while_map {A B} (f : A -> B) (ts : A -> Q) (ts' : B -> Q)
    (cutoff : Q) (d : list A) :
  (forall x, ts' (f x) = ts x) ->
  map f (popleft_while ts cutoff d) = popleft_while ts' cutoff (map f d).
Proof.
  intros Hts. induction d as [|x d IH]; simpl; [reflexivity|].
  rewrite Hts. destruct (Qltb (ts x) cutoff); [exact IH|reflexivity].
Qed.

Lemma set_last_duration_forgotten (d : Q) (l : list KeystrokeData) :
  map forget_duration (set_last_duration d l) = map forget_duration l.
Proof.
  unfold set_last_duration. destruct (last l) as [k|] eqn:E; [|reflexivity].
  apply last_Some in E as [l' ->].
  rewrite removelast_last, !map_app. reflexivity.
Qed.

Lemma filter_map_forget (p : KeystrokeData -> bool) (l : list KeystrokeData) :
  (forall k, p (forget_duration k) = p k) ->
  List.filter p (map forget_duration l) = map forget_duration (List.filter p l).
Proof.
  intros Hp. induction l as [|k l IH]; simpl; [reflexivity|].
  rewrite Hp. destruct (p k); simpl; rewrite IH; reflexivity.
Qed.

Lemma map_timestamp_forget (l : list KeystrokeData) :
  map ks_timestamp (map forget_duration l) = map ks_timestamp l.
Proof. rewrite map_map. reflexivity. Qed.

Lemma Qlen_map {A B} (f : A -> B) (l : list A) : Qlen (map f l) = Qlen l.
Proof. unfold Qlen. rewrite length_map. reflexivity. Qed.

(** The typing metrics read timestamps and modifier flags only. *)
Lemma typing_metrics_of_view (now : Q) (s : Monitor) :
  calculate_typing_metrics now (classification_view s)
  = calculate_typing_metrics now s.
Proof.
  unfold calculate_typing_metrics.
  change (analysis_window (classification_view s)) with (analysis_window s).
  change (keystroke_data (classification_view s))
    with (map forget_duration (keystroke_data s)).
  rewrite filter_map_forget by reflexivity.
  set (recent := List.filter _ (keystroke_data s)).
  rewrite length_map.
  destruct (length recent <? 2)%nat; [reflexivity|].
  destruct recent as [|first rest]; [reflexivity|].
  change (map forget_duration (first :: rest))
    with (forget_duration first :: map forget_duration rest).
  cbv zeta.
  change (ks_timestamp (forget_duration first)) with (ks_timestamp first).
  change (forget_duration first :: map forget_duration rest)
    with (map forget_duration (first :: rest)).
  rewrite map_timestamp_forget, !Qlen_map. reflexivity.
Qed.

Lemma mouse_metrics_of_view (fsqrt : Q -> Q) (now : Q) (s : Monitor) :
  calculate_mouse_metrics fsqrt now (classification_view s)
  = calculate_mouse_metrics fsqrt now s.
Proof. reflexivity. Qed.

(** Two states with the same view agree on every attribute but the pending
    table and the durations. *)
Lemma view_fields (s1 s2 : Monitor) :
  classification_view s1 = classification_view s2 ->
  analysis_window s1 = analysis_window s2
  /\ inactivity_threshold s1 = inactivity_threshold s2
  /\ data_retention s1 = data_retention s2
  /\ map forget_duration (keystroke_data s1) = map forget_duration (keystroke_data s2)
  /\ mouse_data s1 = mouse_data s2
  /\ current_metrics s1 = current_metrics s2
  /\ app_usage s1 = app_usage s2
  /\ running s1 = running s2
  /\ keystroke_queue s1 = keystroke_queue s2
  /\ mouse_queue s1 = mouse_queue s2.
Proof.
  destruct s1, s2. unfold classification_view. simpl.
  intros H. injection H as -> -> -> Hkd -> -> -> -> -> ->.
  repeat split. exact Hkd.
Qed.

Lemma view_of_fields (s1 s2 : Monitor) :
  analysis_window s1 = analysis_window s2 ->
  inactivity_threshold s1 = inactivity_threshold s2 ->
  data_retention s1 = data_retention s2 ->
  map forget_duration (keystroke_data s1) = map forget_duration (keystroke_data s2) ->
  mouse_data s1 = mouse_data s2 ->
  current_metrics s1 = current_metrics s2 ->
  app_usage s1 = app_usage s2 ->
  running s1 = running s2 ->
  keystroke_queue s1 = keystroke_queue s2 ->
  mouse_queue s1 = mouse_queue s2 ->
  classification_view s1 = classification_view s2.
Proof.
  destruct s1, s2. unfold classification_view. simpl.
  intros -> -> -> -> -> -> -> -> -> ->. reflexivity.
Qed.

Ltac view_step H :=
  apply view_fields in H;
  destruct H as (Haw & Hit & Hdr & Hkd & Hmd & Hcm & Hau & Hr & Hkq & Hmq).

Lemma view_drain_keystroke (t : Q) (k : KeystrokeData) (s1 s2 : Monitor) :
  classification_view s1 = classification_view s2 ->
  classification_view (drain_keystroke t s1 k)
  = classification_view (drain_keystroke t s2 k).
Proof.
  intros H. view_step H.
  apply view_of_fields; simpl; try assumption.
  - rewrite !deque_append_map, Hkd. reflexivity.
  - rewrite Hcm. reflexivity.
Qed.

Lemma view_drain_mouse (t : Q) (m : MouseData) (s1 s2 : Monitor) :
  classification_view s1 = classification_view s2 ->
  classification_view (drain_mouse t s1 m) = classification_view (drain_mouse t s2 m).
Proof.
  intros H. view_step H.
  apply view_of_fields; simpl; try assumption.
  - rewrite Hmd. reflexivity.
  - rewrite Hcm. reflexivity.
Qed.

Lemma fold_left_related {A B} (R : A -> A -> Prop) (f : A -> B -> A) (l : list B) :
  (forall a b x, R a b -> R (f a x) (f b x)) ->
  forall a b, R a b -> R (fold_left f l a) (fold_left f l b).
Proof.
  intros Hf. induction l as [|x l IH]; intros a b Hab; simpl; auto.
Qed.

Lemma view_process_queued_data (t : Q) (s1 s2 : Monitor) :
  classification_view s1 = classification_view s2 ->
  classification_view (process_queued_data t s1)
  = classification_view (process_queued_data t s2).
Proof.
  intros H. unfold process_queued_data.
  assert (Ekq : keystroke_queue s1 = keystroke_queue s2)
    by (pose proof H as H'; view_step H'; assumption).
  rewrite Ekq.
  set (a1 := fold_left (drain_keystroke t) (q_items (keystroke_queue s2))
               (set_keystroke_queue _ s1)).
  set (a2 := fold_left (drain_keystroke t) (q_items (keystroke_queue s2))
               (set_keystroke_queue _ s2)).
  assert (Ha : classification_view a1 = classification_view a2).
  { apply (fold_left_related
             (fun a b => classification_view a = classification_view b)).
    - intros a b x. apply view_drain_keystroke.
    - view_step H. apply view_of_fields; simpl; assumption || reflexivity. }
  assert (Emq : mouse_queue a1 = mouse_queue a2)
    by (pose proof Ha as H'; view_step H'; assumption).
  rewrite Emq.
  apply (fold_left_related
           (fun a b => classification_view a = classification_view b)).
  - intros a b x. apply view_drain_mouse.
  - view_step Ha. apply view_of_fields; simpl; assumption || reflexivity.
Qed.

Lemma view_clean_old_data (t : Q) (s1 s2 : Monitor) :
  classification_view s1 = classification_view s2 ->
  classification_view (clean_old_data t s1) = classification_view (clean_old_data t s2).
Proof.
  intros H. view_step H. unfold clean_old_data.
  apply view_of_fields; simpl; try assumption.
  - rewrite !(popleft_while_map forget_duration ks_timestamp ks_timestamp)
      by reflexivity.
    rewrite Hkd, Hdr. reflexivity.
  - rewrite Hmd, Hdr. reflexivity.
Qed.

Lemma view_store_typing (t : Q) (s1 s2 : Monitor) :
  classification_view s1 = classification_view s2 ->
  classification_view (store_typing t s1) = classification_view (store_typing t s2).
Proof.
  intros H.
  assert (Hty : calculate_typing_metrics t s1 = calculate_typing_metrics t s2).
  { rewrite <- (typing_metrics_of_view t s1), <- (typing_metrics_of_view t s2), H.
    reflexivity. }
  view_step H. unfold store_typing.
  apply view_of_fields; simpl; try assumption.
  rewrite Hty, Hcm. reflexivity.
Qed.

Lemma view_store_mouse (fsqrt : Q -> Q) (t : Q) (s1 s2 : Monitor) :
  classification_view s1 = classification_view s2 ->
  classification_view (store_mouse fsqrt t s1)
  = classification_view (store_mouse fsqrt t s2).
Proof.
  intros H.
  assert (Hmo : calculate_mouse_metrics fsqrt t s1 = calculate_mouse_metrics fsqrt t s2).
  { rewrite <- (mouse_metrics_of_view fsqrt t s1),
      <- (mouse_metrics_of_view fsqrt t s2), H.
    reflexivity. }
  unfold store_mouse. rewrite Hmo.
  destruct (calculate_mouse_metrics fsqrt t s2); [|exact H].
  view_step H. apply view_of_fields; simpl; try assumption.
  rewrite Hcm. reflexivity.
Qed.

(** A release changes nothing but the pending table and a duration. *)
Lemma view_on_key_release (key : RawKey) (t : Q) (s : Monitor) :
  classification_view (on_key_release key t s) = classification_view s.
Proof.
  unfold on_key_release.
  destruct (negb (running s)); [reflexivity|].
  destruct (key_press_times s !! key_str key); [|reflexivity].
  change (keystroke_data (set_key_press_times ?m s)) with (keystroke_data s).
  destruct (last (keystroke_data s)); [|reflexivity].
  destruct (Qeq_bool _ _); [|reflexivity].
  apply view_of_fields; simpl; try reflexivity.
  apply set_last_duration_forgotten.
Qed.

Section AnyClassifier.

Variable classify : RawKey -> KeyType * bool.
Variable fsqrt : Q -> Q.

Lemma view_step_with (s1 s2 : Monitor) (e1 e2 : Event) :
  same_classification_with classify e1 e2 ->
  classification_view s1 = classification_view s2 ->
  classification_view (step_with classify fsqrt s1 e1)
  = classification_view (step_with classify fsqrt s2 e2).
Proof.
  intros Hsc H.
  assert (Hpress : forall k1 k2 t, classify k1 = classify k2 ->
            classification_view (on_key_press_with classify k1 t s1)
            = classification_view (on_key_press_with classify k2 t s2)).
  { intros k1 k2 t Hc. pose proof H as H'. view_step H'.
    unfold on_key_press_with. rewrite Hc, Hr.
    destruct (negb (running s2)); [exact H|].
    destruct (classify k2) as [kt im].
    apply view_of_fields; simpl; try assumption.
    rewrite Hkq. reflexivity. }
  destruct Hsc as [k1 k2 t Hc|k1 k2 t Hc|e].
  - apply Hpress, Hc.
  - simpl. rewrite !view_on_key_release. exact H.
  - destruct e; simpl.
    + pose proof H as H'. view_step H'. unfold start_monitoring. rewrite Hr.
      destruct (running s2); [exact H|].
      apply view_of_fields; simpl; assumption || reflexivity.
    + pose proof H as H'. view_step H'. unfold stop_monitoring. rewrite Hr.
      destruct (negb (running s2)); [exact H|].
      apply view_of_fields; simpl; assumption || reflexivity.
    + apply Hpress. reflexivity.
    + rewrite !view_on_key_release. exact H.
    + pose proof H as H'. view_step H'. unfold on_mouse_move. rewrite Hr.
      destruct (negb (running s2)); [exact H|].
      apply view_of_fields; simpl; try assumption. rewrite Hmq. reflexivity.
    + pose proof H as H'. view_step H'. unfold on_mouse_click. rewrite Hr.
      destruct (negb (running s2)); [exact H|].
      destruct pressed; [|exact H].
      apply view_of_fields; simpl; try assumption. rewrite Hmq. reflexivity.
    + pose proof H as H'. view_step H'. unfold on_mouse_scroll. rewrite Hr.
      destruct (negb (running s2)); [exact H|].
      apply view_of_fields; simpl; try assumption. rewrite Hmq. reflexivity.
    + rewrite !analysis_iteration_unfold.
      assert (Hr : running s1 = running s2)
        by (pose proof H as H'; view_step H'; assumption).
      rewrite Hr. destruct (running s2); [|exact H].
      apply view_store_mouse, view_store_typing, view_clean_old_data,
        view_process_queued_data, H.
Qed.

Lemma view_run_with (events1 events2 : list Event) :
  Forall2 (same_classification_with classify) events1 events2 ->
  forall s1 s2,
    classification_view s1 = classification_view s2 ->
    classification_view (run_with classify fsqrt events1 s1)
    = classification_view (run_with classify fsqrt events2 s2).
Proof.
  induction 1 as [|e1 e2 l1 l2 He Hl IH]; intros s1 s2 H; [exact H|].
  apply IH, view_step_with; assumption.
Qed.

End AnyClassifier.

(** C1, amended: whatever function classifies the keys, two sequences of
    events that agree on each event's kind, clock reading and classification
    leave the same queues, buffered records up to their [press_duration],
    counters and metrics.  The pending-press table, which is keyed by
    [str(key)] and keeps the identity of every key that is pressed and not
    yet released, and the [press_duration] computed through it are not
    covered.  With [_classify_key] as the classifier this is the run of the
    monitor. *)
Theorem state_depends_on_classification_only
    (classify : RawKey -> KeyType * bool) (fsqrt : Q -> Q) (aw it dr t0 t1 : Q)
    (events1 events2 : list Event) :
  Forall2 (same_classification_with classify) events1 events2 ->
  classification_view (run_with classify fsqrt events1 (init aw it dr t0 t1))
  = classification_view (run_with classify fsqrt events2 (init aw it dr t0 t1))
  /\ run_with classify_key fsqrt events1 (init aw it dr t0 t1)
     = run fsqrt events1 (init aw it dr t0 t1).
Proof.
  intros Hsc. split.
  - apply view_run_with; [exact Hsc|reflexivity].
  - apply run_with_classify_key.
Qed.

Lemma state_depends_on_classification_only_witness :
  classification_view (run_with classify_key sqrt_floor (session_of key_a) monitor0)
  = classification_view (run_with classify_key sqrt_floor (session_of key_b) monitor0).
Proof.
  refine (proj1 (state_depends_on_classification_only classify_key sqrt_floor
                   60 30 3600 0 0 (session_of key_a) (session_of key_b) _)).
  unfold session_of.
  repeat (constructor; try (apply scw_press; reflexivity);
          try (apply scw_release; reflexivity)).
Defined.
